(** * graphviz.backend.rendering: format resolution and the render orchestrator

    A shallow embedding of [src/graphviz/backend/rendering.py].

    - Python [str] values are Rocq [string]s whose characters are read as
      code points 0..255.
    - [pathlib.Path] is modelled for the POSIX flavour: a path is its root
      and its components, as the parser of [PurePosixPath] leaves them;
      two paths are equal when these are.  [suffix] is the one of Python
      up to 3.13 (a name that ends in a dot has no suffix).
    - [Path.resolve] and [os.path.exists] read an explicit [World]; the
      layout subprocess may change it.
    - A computation returns its result or the exception it raises,
      together with the events it performed, in order: warnings, paths
      resolved, files looked up, subprocesses run.  [warnings.warn] is
      taken under the default filters: it reports and goes on. *)

From Stdlib Require Import Ascii String.
From stdpp Require Import base decidable option list sorting gmap strings.

Local Open Scope stdpp_scope.

(** ** Python [str] methods used by the module *)

Module Str.

Fixpoint take (n : nat) (s : string) : string :=
  match n, s with
  | S n', String a s' => String a (take n' s')
  | _, _ => ""
  end.

Fixpoint drop (n : nat) (s : string) : string :=
  match n, s with
  | S n', String _ s' => drop n' s'
  | _, _ => s
  end.

(** [s.rfind(c)]: the highest index of [c] in [s]; Python's [-1] is [None]. *)
Fixpoint rfind (c : ascii) (s : string) : option nat :=
  match s with
  | "" => None
  | String a s' =>
      match rfind c s' with
      | Some i => Some (S i)
      | None => if Ascii.eqb a c then Some 0 else None
      end
  end.

(** [c in s] for a one-character [c]. *)
Fixpoint contains (c : ascii) (s : string) : bool :=
  match s with
  | "" => false
  | String a s' => Ascii.eqb a c || contains c s'
  end.

(** [s.startswith(c)] for a one-character [c]. *)
Definition startswith (c : ascii) (s : string) : bool :=
  match s with
  | String a _ => Ascii.eqb a c
  | "" => false
  end.

(** [s.partition(c)]: split at the first occurrence of [c]. *)
Fixpoint partition (c : ascii) (s : string) : string * string * string :=
  match s with
  | "" => ("", "", "")
  | String a s' =>
      if Ascii.eqb a c then ("", String c "", s')
      else match partition c s' with
           | (_, "", _) => (s, "", "")
           | (start, sep, rest) => (String a start, sep, rest)
           end
  end.

(** [s.split(c)] *)
Fixpoint split (c : ascii) (s : string) : list string :=
  match s with
  | "" => [""]
  | String a s' =>
      if Ascii.eqb a c then "" :: split c s'
      else match split c s' with
           | x :: xs => String a x :: xs
           | [] => [String a ""]
           end
  end.

(** [sep.join(l)] *)
Fixpoint join (sep : string) (l : list string) : string :=
  match l with
  | [] => ""
  | [x] => x
  | x :: l' => x +:+ sep +:+ join sep l'
  end.

(** [str.lower] on one code point below 256: A-Z, and the Latin-1
    capitals U+00C0..U+00DE except the multiplication sign U+00D7. *)
Definition lower_char (a : ascii) : ascii :=
  let n := nat_of_ascii a in
  if (Nat.leb 65 n && Nat.leb n 90)
     || (Nat.leb 192 n && Nat.leb n 222 && negb (Nat.eqb n 215))
  then ascii_of_nat (n + 32) else a.

Fixpoint lower (s : string) : string :=
  match s with
  | "" => ""
  | String a s' => String (lower_char a) (lower s')
  end.

Definition hex_digit (n : nat) : ascii :=
  ascii_of_nat (if Nat.ltb n 10 then 48 + n else 87 + n).

(** The double quote character. *)
Definition dquote : ascii := ascii_of_nat 34.

(** One character of [repr(str)] inside the quotes [q]. *)
Definition repr_char (q : ascii) (a : ascii) : string :=
  let n := nat_of_ascii a in
  if Ascii.eqb a q || Ascii.eqb a "\"%char then String "\"%char (String a "")
  else if Nat.eqb n 9 then "\t"
  else if Nat.eqb n 10 then "\n"
  else if Nat.eqb n 13 then "\r"
  else if Nat.ltb n 32 || Nat.eqb n 127
          || (Nat.leb 128 n && Nat.leb n 160) || Nat.eqb n 173
  then "\x" +:+ String (hex_digit (n / 16)) (String (hex_digit (n mod 16)) "")
  else String a "".

Fixpoint repr_body (q : ascii) (s : string) : string :=
  match s with
  | "" => ""
  | String a s' => repr_char q a +:+ repr_body q s'
  end.

(** [repr(s)] for a [str]: single quotes, unless the string holds a
    single quote and no double quote. *)
Definition repr (s : string) : string :=
  let q := if contains "'"%char s && negb (contains dquote s)
           then dquote else "'"%char in
  String q (repr_body q s +:+ String q "").

(** [repr(l)] for a list of [str]. *)
Definition repr_list (l : list string) : string :=
  "[" +:+ join ", " (map repr l) +:+ "]".

Definition le (a b : string) : Prop := String.leb a b = true.

Global Instance le_dec : RelDecision le.
Proof. intros a b. unfold le. apply _. Defined.

(** [sorted(l)] for a list of [str] (order by code point). *)
Definition sorted (l : list string) : list string := merge_sort le l.

End Str.

(** ** Exceptions and warnings

    The exception classes the module raises or lets through, each with its
    message, and the two warning categories of [graphviz.exceptions]. *)

Inductive exn : Type :=
| ValueError (msg : string)
| AssertionError (msg : string)
| RequiredArgumentError (msg : string)
| FileExistsError (msg : string)
| ExecutableNotFound (msg : string)
| CalledProcessError (returncode : Z) (msg : string).

Inductive result (A : Type) : Type :=
| Ok (a : A)
| Raise (e : exn).
Arguments Ok {A} a.
Arguments Raise {A} e.

Inductive category : Type :=
| UnknownSuffixWarning
| FormatSuffixMismatchWarning.

Definition is_ValueError (e : exn) : bool :=
  match e with ValueError _ => true | _ => false end.

(** ** [pathlib.Path], POSIX flavour *)

(** A parsed path: the root ([""], ["/"] or ["//"]) and the components
    after it.  A path is relative when its root is empty. *)
Record Path : Type := mkPath { root : string; tail : list string }.

Global Instance Path_eq_dec : EqDecision Path.
Proof. solve_decision. Defined.

Module PurePath.

(** [posixpath.splitroot] without the (always empty) drive. *)
Definition splitroot (p : string) : string * string :=
  match p with
  | String "/" (String "/" (String "/" r)) => ("/", String "/" (String "/" r))
  | String "/" (String "/" r) => ("//", r)
  | String "/" r => ("/", r)
  | _ => ("", p)
  end.

Definition is_component (x : string) : bool :=
  negb (String.eqb x "") && negb (String.eqb x ".").

(** [pathlib.Path(s)] *)
Definition of_string (s : string) : Path :=
  let '(r, rel) := splitroot s in
  mkPath r (filter (fun x => is_component x = true) (Str.split "/" rel)).

(** [str(p)], which is also [os.fspath(p)] *)
Definition fspath (p : Path) : string :=
  let s := root p +:+ Str.join "/" (tail p) in
  if String.eqb s "" then "." else s.

(** [repr(p)] *)
Definition repr (p : Path) : string :=
  "PosixPath(" +:+ Str.repr (fspath p) +:+ ")".

(** [p.is_absolute()] *)
Definition is_absolute (p : Path) : bool := negb (String.eqb (root p) "").

(** [p.parts] *)
Definition parts (p : Path) : list string :=
  if String.eqb (root p) "" then tail p else root p :: tail p.

(** [p.name] *)
Definition name (p : Path) : string := List.last (tail p) "".

(** [p.parent] *)
Definition parent (p : Path) : Path :=
  match tail p with
  | [] => p
  | _ => mkPath (root p) (removelast (tail p))
  end.

(** [p.suffix] *)
Definition suffix (p : Path) : string :=
  let name := name p in
  match Str.rfind "." name with
  | Some i =>
      if Nat.ltb 0 i && Nat.ltb i (String.length name - 1)
      then Str.drop i name else ""
  | None => ""
  end.

(** [p.with_suffix(suffix)] *)
Definition with_suffix (p : Path) (suffix' : string) : result Path :=
  if Str.contains "/" suffix' then
    Raise (ValueError ("Invalid suffix " +:+ Str.repr suffix'))
  else if negb (String.eqb suffix' "") && negb (Str.startswith "." suffix')
          || String.eqb suffix' "." then
    Raise (ValueError ("Invalid suffix " +:+ Str.repr suffix'))
  else
    let name := name p in
    if String.eqb name "" then
      Raise (ValueError (repr p +:+ " has an empty name"))
    else
      let old_suffix := suffix p in
      let name :=
        if String.eqb old_suffix "" then name +:+ suffix'
        else Str.take (String.length name - String.length old_suffix) name
             +:+ suffix' in
      Ok (mkPath (root p) (removelast (tail p) ++ [name])).

(** [p / key] for a [str] key *)
Definition truediv (p : Path) (key : string) : Path :=
  let q := of_string key in
  if String.eqb (root q) "" then mkPath (root p) (tail p ++ tail q) else q.

End PurePath.

Notation "p // key" := (PurePath.truediv p key) (at level 40, left associativity).

(** The paths the parser produces: one of the three roots, and components
    that are not empty, not a dot, and hold no separator. *)
Definition well_formed (p : Path) : Prop :=
  (root p = "" ∨ root p = "/" ∨ root p = "//")
  ∧ Forall (λ x, PurePath.is_component x = true ∧ Str.contains "/" x = false)
           (tail p).

(** The directory a subprocess started with [cwd] runs in, as a path
    relative to the current directory when [cwd] is [None]. *)
Definition working_directory (cwd : option string) : Path :=
  match cwd with
  | None => PurePath.of_string ""
  | Some d => PurePath.of_string d
  end.

(** ** The world outside the module: file system and layout subprocess *)

(** An element of the argument vector: [render] puts both [str] values and
    one [pathlib.Path] (the resolved outfile) into [cmd]. *)
Inductive arg : Type :=
| StrArg (s : string)
| PathArg (p : Path).

(** What the module reads from the file system: [Path.resolve()] and
    [os.path.exists()]. *)
Record World : Type := mkWorld {
  fs_resolve : Path → Path;
  fs_exists : string → bool
}.

(** The observable effects of a call, in program order. *)
Inductive event : Type :=
| Warn (c : category) (msg : string)
| Resolve (p : Path)
| Exists (path : string)
| RunCheck (cmd : list arg) (cwd : option string) (quiet capture_output : bool).

(** Computations: a state monad over the world that also records the
    events it performs and may raise.  The events and world changes that
    precede an exception are kept, as in Python. *)
Definition M (A : Type) : Type := World → World * list event * result A.

Global Instance M_ret : MRet M := λ A a w, (w, [], Ok a).

Global Instance M_bind : MBind M := λ A B f m w,
  match m w with
  | (w1, e1, Ok a) =>
      match f a w1 with
      | (w2, e2, r) => (w2, e1 ++ e2, r)
      end
  | (w1, e1, Raise e) => (w1, e1, Raise e)
  end.

Definition raise {A : Type} (e : exn) : M A := λ w, (w, [], Raise e).

Definition lift {A : Type} (r : result A) : M A := λ w, (w, [], r).

(** [warnings.warn(msg, category=c)] under the default filters: the
    warning is reported and execution goes on. *)
Definition warnings_warn (msg : string) (c : category) : M unit :=
  λ w, (w, [Warn c msg], Ok tt).

(** [p.resolve()] *)
Definition resolve (p : Path) : M Path :=
  λ w, (w, [Resolve p], Ok (fs_resolve w p)).

(** [os.path.exists(p)], which looks up [os.fspath(p)] *)
Definition os_path_exists (p : Path) : M bool :=
  λ w, (w, [Exists (PurePath.fspath p)], Ok (fs_exists w (PurePath.fspath p))).

Definition is_RunCheck (e : event) : bool :=
  match e with RunCheck _ _ _ _ => true | _ => false end.

(** A computation is a pre-flight step when it never runs the
    subprocess, leaves the world as it is, and reads nothing of the world
    but how paths resolve. *)
Definition preflight {A : Type} (m : M A) : Prop :=
  ∀ w, ∃ evs r,
    m w = (w, evs, r)
    ∧ Forall (λ e, is_RunCheck e = false) evs
    ∧ ∀ w1, (∀ p, fs_resolve w1 p = fs_resolve w p) → m w1 = (w1, evs, r).

(** The collaborators of the module that live in other modules of the
    package: the format registry [parameters.FORMATS], the command
    builder [dot_command.command] and the process runner
    [execute.run_check]. *)
Class Backend : Type := {
  FORMATS : gset string;
  command : string → string → option string → option string → result (list arg);
  run_check : list arg → option string → bool → bool → World → World * result unit
}.

(** Modelled from the spec: the constant [_defaults.DEFAULT_SOURCE_EXTENSION]
    is not among the given sources; the spec derives the source
    [spam.gv] from the outfile [spam.pdf], so the default source suffix
    is [.gv]. *)
Definition DEFAULT_SOURCE_EXTENSION : string := "gv".

Section Rendering.

Context `{B : Backend}.

(** [execute.run_check(cmd, cwd=cwd, quiet=quiet, capture_output=...)] *)
Definition execute_run_check (cmd : list arg) (cwd : option string)
    (quiet capture_output : bool) : M unit :=
  λ w, match run_check cmd cwd quiet capture_output w with
       | (w', r) => (w', [RunCheck cmd cwd quiet capture_output], r)
       end.

(** Modelled from the spec: [parameters.verify_format] is not among the
    given sources.  It validates a format against the supported-format
    set; a format is a case-insensitive identifier. *)
Definition verify_format (format : string) : result unit :=
  if bool_decide (Str.lower format ∈ FORMATS) then Ok tt
  else Raise (ValueError ("unknown format: " +:+ Str.repr format
                          +:+ " (must be one of "
                          +:+ Str.repr_list (Str.sorted (elements FORMATS))
                          +:+ ")")).

Definition get_supported_formats : list string :=
  Str.sorted (elements FORMATS).

Definition get_supported_suffixes : list string :=
  (λ format, "." +:+ format) <$> get_supported_formats.

Definition promote_pathlike (filepath : option string) : option Path :=
  match filepath with
  | None => None
  | Some filepath => Some (PurePath.of_string filepath)
  end.

Definition infer_rendering_format (outfile : Path) : result string :=
  if String.eqb (PurePath.suffix outfile) "" then
    Raise (ValueError ("cannot infer rendering format from outfile:"
                       +:+ " " +:+ Str.repr (PurePath.fspath outfile)
                       +:+ " (missing suffix)"))
  else
    match Str.partition "." (PurePath.suffix outfile) with
    | (start, sep, format_) =>
        if negb (negb (String.eqb sep "") && String.eqb start "") then
          Raise (AssertionError (Str.repr (PurePath.suffix outfile)
                                 +:+ ".startswith('.')"))
        else
          let format_ := Str.lower format_ in
          match verify_format format_ with
          | Raise (ValueError _) =>
              Raise (ValueError ("cannot infer rendering format"
                       +:+ " from suffix " +:+ Str.repr (PurePath.suffix outfile)
                       +:+ " of outfile: " +:+ Str.repr (PurePath.fspath outfile)
                       +:+ " (unknown format: " +:+ Str.repr format_ +:+ ","
                       +:+ " provide outfile with a suffix"
                       +:+ " from " +:+ Str.repr_list get_supported_suffixes +:+ ")"))
          | Raise e => Raise e
          | Ok _ => Ok format_
          end
    end.

(** The messages of [get_rendering_format]. *)
Definition cannot_infer_msg (outfile : Path) : string :=
  "cannot infer rendering format"
  +:+ " from suffix " +:+ Str.repr (PurePath.suffix outfile)
  +:+ " of outfile: " +:+ Str.repr (PurePath.fspath outfile)
  +:+ " (provide format or outfile with a suffix"
  +:+ " from " +:+ Str.repr_list get_supported_suffixes +:+ ")".

Definition unknown_suffix_msg (outfile : Path) (format : string) : string :=
  "unknown outfile suffix " +:+ Str.repr (PurePath.suffix outfile)
  +:+ " (expected: " +:+ Str.repr ("." +:+ format) +:+ ")".

Definition mismatch_msg (result format : string) : string :=
  "expected format " +:+ Str.repr result +:+ " from outfile"
  +:+ " differs from given format: " +:+ Str.repr format.

Definition get_rendering_format (outfile : Path) (format : option string)
    : M string :=
  match infer_rendering_format outfile with
  | Raise (ValueError _) =>
      match format with
      | None => raise (RequiredArgumentError (cannot_infer_msg outfile))
      | Some format =>
          warnings_warn (unknown_suffix_msg outfile format) UnknownSuffixWarning;;
          mret format
      end
  | Raise e => raise e
  | Ok result =>
      match format with
      | Some format =>
          if negb (String.eqb (Str.lower format) result) then
            warnings_warn (mismatch_msg result format) FormatSuffixMismatchWarning;;
            mret format
          else mret result
      | None => mret result
      end
  end.

(** The exceptions [render] raises itself. *)
Definition exclusive_error : exn :=
  ValueError ("overwrite_filepath cannot be combined"
              +:+ " with raise_if_result_exists").

Definition same_file_error (outfile filepath : Path) : exn :=
  ValueError ("outfile " +:+ Str.repr (PurePath.name outfile)
              +:+ " must be different"
              +:+ " from input file " +:+ Str.repr (PurePath.name filepath)
              +:+ " (pass overwrite_filepath=True to override)").

Definition result_exists_error (rendered : Path) : exn :=
  FileExistsError ("output file exists: "
                   +:+ Str.repr (PurePath.fspath rendered)).

(** The source path of the explicit-output mode: the given [filepath],
    or else the outfile with the default source suffix. *)
Definition source_path (filepath : option Path) (outfile : Path)
    : result Path :=
  match filepath with
  | None => PurePath.with_suffix outfile ("." +:+ DEFAULT_SOURCE_EXTENSION)
  | Some filepath => Ok filepath
  end.

(** The branch [if outfile is not None] of [render]: the command, the
    source path and the result path of the explicit-output mode. *)
Definition render_outfile (engine : string) (format : option string)
    (filepath : option Path) (renderer formatter : option string)
    (outfile : Path) (overwrite_filepath : bool)
    : M (list arg * Path * Path) :=
  format ← get_rendering_format outfile format;
  cmd ← lift (command engine format renderer formatter);
  filepath ← lift (source_path filepath outfile);
  same ← (if negb overwrite_filepath
             && String.eqb (PurePath.name outfile) (PurePath.name filepath)
          then a ← resolve outfile; b ← resolve filepath;
               mret (bool_decide (a = b))
          else mret false);
  if same : bool then raise (same_file_error outfile filepath)
  else
    outfile_arg ← (if bool_decide (PurePath.parent outfile ≠ PurePath.parent filepath)
                   then a ← resolve outfile; mret (PathArg a)
                   else mret (StrArg (PurePath.name outfile)));
    let cmd := cmd ++ [StrArg "-o"; outfile_arg; StrArg (PurePath.name filepath)] in
    let rendered := outfile in
    mret (cmd, filepath, rendered).

(** The last branch of [render]: the default-naming mode. *)
Definition render_default (engine : string) (format : string)
    (filepath : Path) (renderer formatter : option string)
    : M (list arg * Path * Path) :=
  cmd ← lift (command engine format renderer formatter);
  let cmd := cmd ++ [StrArg "-O"; StrArg (PurePath.name filepath)] in
  let suffix_args := [formatter; renderer; Some format] in
  let suffix := Str.join "." (omap id suffix_args) in
  let rendered :=
    PurePath.parent filepath // (PurePath.name filepath +:+ "." +:+ suffix) in
  mret (cmd, filepath, rendered).

(** [render] up to the assignment of [rendered]: the check of the two
    flags, the promotion of the paths and the branch on the mode.
    Arguments are passed by keyword, so the decorator
    [deprecate_positional_args] stays silent; a path-like argument is
    given by its [os.fspath] string. *)
Definition render_request (engine : string) (format : option string)
    (filepath : option string) (renderer formatter : option string)
    (outfile : option string)
    (raise_if_result_exists overwrite_filepath : bool)
    : M (list arg * Path * Path) :=
  if raise_if_result_exists && overwrite_filepath then raise exclusive_error
  else
    let filepath := promote_pathlike filepath in
    let outfile := promote_pathlike outfile in
    match outfile with
    | Some outfile =>
        render_outfile engine format filepath renderer formatter
                       outfile overwrite_filepath
    | None =>
        match format with
        | None =>
            raise (RequiredArgumentError
                     ("format: (required if outfile is not given,"
                      +:+ " got None)"))
        | Some format =>
            match filepath with
            | None =>
                raise (RequiredArgumentError
                         ("filepath: (required if outfile is not given,"
                          +:+ " got None)"))
            | Some filepath =>
                render_default engine format filepath renderer formatter
            end
        end
    end.

(** The working directory of the subprocess. *)
Definition cwd_of (filepath : Path) : option string :=
  match PurePath.parts (PurePath.parent filepath) with
  | [] => None
  | _ => Some (PurePath.fspath (PurePath.parent filepath))
  end.

(** [render] *)
Definition render (engine : string) (format : option string)
    (filepath : option string) (renderer formatter : option string)
    (quiet : bool) (outfile : option string)
    (raise_if_result_exists overwrite_filepath : bool) : M string :=
  '(cmd, filepath, rendered) ←
    render_request engine format filepath renderer formatter outfile
                   raise_if_result_exists overwrite_filepath;
  found ← (if raise_if_result_exists then os_path_exists rendered
           else mret false);
  if found : bool then raise (result_exists_error rendered)
  else
    let cwd := cwd_of filepath in
    execute_run_check cmd cwd quiet true;;
    mret (PurePath.fspath rendered).

End Rendering.

Section Messages.

Context `{B : Backend}.

(** The two messages of [infer_rendering_format]. *)
Definition missing_suffix_msg (outfile : Path) : string :=
  "cannot infer rendering format from outfile:"
  +:+ " " +:+ Str.repr (PurePath.fspath outfile)
  +:+ " (missing suffix)".

Definition unknown_format_msg (outfile : Path) : string :=
  "cannot infer rendering format"
  +:+ " from suffix " +:+ Str.repr (PurePath.suffix outfile)
  +:+ " of outfile: " +:+ Str.repr (PurePath.fspath outfile)
  +:+ " (unknown format: "
  +:+ Str.repr (Str.lower (Str.drop 1 (PurePath.suffix outfile))) +:+ ","
  +:+ " provide outfile with a suffix"
  +:+ " from " +:+ Str.repr_list get_supported_suffixes +:+ ")".

(** The two messages of the default-naming mode of [render]. *)
Definition format_required_msg : string :=
  "format: (required if outfile is not given," +:+ " got None)".

Definition filepath_required_msg : string :=
  "filepath: (required if outfile is not given," +:+ " got None)".

End Messages.

(** ** A sample back end

    [render] is modelled over any [Backend].  The examples run it over
    this one: a small format registry holding the formats the docstrings
    name, a command builder, and a stub engine that always succeeds and
    leaves its output file behind. *)

Module Sample.

Definition sample_FORMATS : gset string :=
  {["bmp"]} ∪ {["pdf"]} ∪ {["png"]} ∪ {["svg"]}.

Definition ENGINES : gset string := {["dot"]} ∪ {["neato"]}.
Definition RENDERERS : gset string := {["cairo"]} ∪ {["gd"]}.
Definition FORMATTERS : gset string := {["cairo"]} ∪ {["gd"]}.

Definition verify (kind : string) (known : gset string) (x : string)
    : result unit :=
  if bool_decide (Str.lower x ∈ known) then Ok tt
  else Raise (ValueError ("unknown " +:+ kind +:+ ": " +:+ Str.repr x)).

Definition verify_opt (kind : string) (known : gset string)
    (x : option string) : result unit :=
  match x with
  | None => Ok tt
  | Some x => verify kind known x
  end.

(** Modelled from the spec: [dot_command.command] is not among the
    given sources.  A formatter without a renderer is refused, the
    engine, format, renderer and formatter are validated against the
    registry, and the result is the invocation prefix that encodes them
    as flags. *)
Definition sample_command (engine format_ : string)
    (renderer formatter : option string) : result (list arg) :=
  match formatter, renderer with
  | Some _, None => Raise (RequiredArgumentError "formatter given without renderer")
  | _, _ =>
      match verify "engine" ENGINES engine with
      | Raise e => Raise e
      | Ok _ =>
      match verify "format" sample_FORMATS format_ with
      | Raise e => Raise e
      | Ok _ =>
      match verify_opt "renderer" RENDERERS renderer with
      | Raise e => Raise e
      | Ok _ =>
      match verify_opt "formatter" FORMATTERS formatter with
      | Raise e => Raise e
      | Ok _ =>
          Ok [StrArg "dot"; StrArg ("-K" +:+ engine);
              StrArg ("-T" +:+ Str.join ":" (omap id [Some format_; renderer; formatter]))]
      end end end end
  end.

(** A file system without symbolic links: the current directory is
    [/work], and the files that exist are kept by absolute path. *)
Definition cwd : Path := mkPath "/" ["work"].

Definition absolute (p : Path) : Path :=
  if String.eqb (root p) "" then mkPath (root cwd) (tail cwd ++ tail p) else p.

Definition world_of (files : list Path) : World :=
  mkWorld absolute
          (λ s, bool_decide (absolute (PurePath.of_string s) ∈ files)).

(** The file the engine writes: the argument of [-o], or for [-O] the
    input name followed by the parts of the [-T] flag in reverse. *)
Fixpoint output_of (T : string) (dir : Path) (cmd : list arg) : option Path :=
  match cmd with
  | StrArg "-o" :: PathArg a :: _ => Some a
  | StrArg "-o" :: StrArg n :: _ => Some (dir // n)
  | StrArg "-O" :: StrArg n :: _ => Some (dir // (n +:+ "." +:+ T))
  | StrArg (String "-" (String "T" t)) :: rest =>
      output_of (Str.join "." (rev (Str.split ":" t))) dir rest
  | _ :: rest => output_of T dir rest
  | [] => None
  end.

Definition touch (p : Path) (w : World) : World :=
  mkWorld (fs_resolve w)
          (λ s, bool_decide (fs_resolve w (PurePath.of_string s) = fs_resolve w p)
                || fs_exists w s).

(** The stub engine: it always succeeds and leaves its output file
    behind. *)
Definition stub_run_check (cmd : list arg) (cwd : option string)
    (quiet capture_output : bool) (w : World) : World * result unit :=
  let dir := match cwd with
             | None => PurePath.of_string ""
             | Some d => PurePath.of_string d
             end in
  match output_of "" dir cmd with
  | Some p => (touch p w, Ok tt)
  | None => (w, Ok tt)
  end.

Definition empty_world : World := world_of [].

(** A world in which the source [spam.gv] exists. *)
Definition world_with_source : World :=
  world_of [mkPath "/" ["work"; "spam.gv"]].

(** A world in which [spam.gv] and the results [spam.pdf] and
    [spam.gv.png] exist. *)
Definition world_with_result : World :=
  world_of [mkPath "/" ["work"; "spam.gv"]; mkPath "/" ["work"; "spam.pdf"];
            mkPath "/" ["work"; "spam.gv.png"]].

Global Instance sample_backend : Backend := {|
  FORMATS := sample_FORMATS;
  command := sample_command;
  run_check := stub_run_check
|}.

(** The commands of two sample calls: [render('dot', 'png',
    'doctest-output/spam.gv')] and [render('dot', outfile='out/spam.pdf')],
    and the worlds the stub engine leaves after them. *)
Definition default_call_cmd : list arg :=
  [StrArg "dot"; StrArg "-Kdot"; StrArg "-Tpng"; StrArg "-O"; StrArg "spam.gv"].

Definition outfile_call_cmd : list arg :=
  [StrArg "dot"; StrArg "-Kdot"; StrArg "-Tpdf";
   StrArg "-o"; StrArg "spam.pdf"; StrArg "spam.gv"].

Definition after_default_call (w : World) : World :=
  touch (PurePath.of_string "doctest-output/spam.gv.png") w.

Definition after_outfile_call (w : World) : World :=
  touch (PurePath.of_string "out/spam.pdf") w.

(** A world in which every path resolves to one and the same file, as
    with links, and no result exists yet. *)
Definition one_file_world : World :=
  mkWorld (λ _, mkPath "/" ["work"; "spam.gv"]) (λ _, false).

(** A back end whose registry holds a format with a dot in its name. *)
Definition dotted_FORMATS : gset string := {["png"]} ∪ {["xdot1.2"]}.

Definition dotted_backend : Backend := {|
  FORMATS := dotted_FORMATS;
  command := sample_command;
  run_check := stub_run_check
|}.

End Sample.

(** * Properties *)

(** ** Strings *)

Section StrFacts.

Lemma lower_char_idemp (a : ascii) :
  Str.lower_char (Str.lower_char a) = Str.lower_char a.
Proof. destruct a as [[] [] [] [] [] [] [] []]; reflexivity. Qed.

Lemma lower_idemp (s : string) : Str.lower (Str.lower s) = Str.lower s.
Proof.
  induction s as [|a s IH]; simpl; [reflexivity|].
  by rewrite lower_char_idemp, IH.
Qed.

Lemma append_cons (a : ascii) (s t : string) :
  String a s +:+ t = String a (s +:+ t).
Proof. reflexivity. Qed.

Lemma take_drop (n : nat) (s : string) : Str.take n s +:+ Str.drop n s = s.
Proof.
  revert s; induction n as [|n IH]; intros [|a s]; simpl; try reflexivity.
  by rewrite append_cons, IH.
Qed.

Lemma length_drop (n : nat) (s : string) :
  String.length (Str.drop n s) = String.length s - n.
Proof.
  revert s; induction n as [|n IH]; intros [|a s]; simpl;
    try reflexivity; try lia.
  apply IH.
Qed.

Lemma rfind_lt (c : ascii) (s : string) (i : nat) :
  Str.rfind c s = Some i → i < String.length s.
Proof.
  revert i; induction s as [|a s IH]; simpl; intros i H; [discriminate|].
  destruct (Str.rfind c s) as [j|].
  - injection H as <-. specialize (IH j eq_refl). lia.
  - destruct (Ascii.eqb a c); [injection H as <-; lia | discriminate].
Qed.

(** The character at the index [rfind] returns is the one looked for. *)
Lemma rfind_drop (c : ascii) (s : string) (i : nat) :
  Str.rfind c s = Some i → ∃ t, Str.drop i s = String c t.
Proof.
  revert i; induction s as [|a s IH]; simpl; intros i H; [discriminate|].
  destruct (Str.rfind c s) as [j|].
  - injection H as <-. simpl. by apply IH.
  - destruct (Ascii.eqb a c) eqn:E; [|discriminate].
    injection H as <-. apply Ascii.eqb_eq in E as ->. by exists s.
Qed.

Lemma eqb_empty_false (s : string) : s ≠ "" → String.eqb s "" = false.
Proof. intros H. apply String.eqb_neq. exact H. Qed.

End StrFacts.

(** ** Paths *)

Section PathFacts.

(** A suffix is empty or starts with a dot. *)
Lemma suffix_cases (p : Path) :
  PurePath.suffix p = "" ∨ ∃ s, PurePath.suffix p = String "." s.
Proof.
  unfold PurePath.suffix.
  destruct (Str.rfind "." (PurePath.name p)) as [i|] eqn:E; [|by left].
  destruct (_ && _); [|by left].
  right. by apply rfind_drop.
Qed.

(** A non-empty suffix is the end of a non-empty name. *)
Lemma suffix_name (p : Path) :
  PurePath.suffix p ≠ "" →
  PurePath.name p ≠ "" ∧
  Str.take (String.length (PurePath.name p) - String.length (PurePath.suffix p))
           (PurePath.name p) +:+ PurePath.suffix p = PurePath.name p.
Proof.
  unfold PurePath.suffix.
  destruct (Str.rfind "." (PurePath.name p)) as [i|] eqn:E; [|done].
  destruct (_ && _); [|done]. intros _.
  pose proof (rfind_lt _ _ _ E) as Hi. split.
  - intros Hn. rewrite Hn in Hi. simpl in Hi. lia.
  - rewrite length_drop.
    replace (String.length (PurePath.name p) - (String.length (PurePath.name p) - i))
      with i by lia.
    apply take_drop.
Qed.

(** [split] cuts at every separator, so no piece holds one. *)
Lemma split_no_sep (c : ascii) (s : string) :
  Forall (λ x, Str.contains c x = false) (Str.split c s).
Proof.
  induction s as [|a s IH]; simpl; [by repeat constructor|].
  destruct (Ascii.eqb a c) eqn:E; [by constructor|].
  destruct (Str.split c s) as [|x xs]; [by repeat constructor; simpl; rewrite E|].
  inversion IH; subst. constructor; [|done]. simpl. by rewrite E.
Qed.

Lemma split_piece (c : ascii) (x : string) :
  Str.contains c x = false → Str.split c x = [x].
Proof.
  induction x as [|a x IH]; simpl; [done|].
  destruct (Ascii.eqb a c); [done|]. simpl. intros H. by rewrite IH.
Qed.

Lemma split_app (c : ascii) (x rest : string) :
  Str.contains c x = false →
  Str.split c (x +:+ String c rest) = x :: Str.split c rest.
Proof.
  induction x as [|a x IH]; simpl.
  - intros _. by rewrite Ascii.eqb_refl.
  - destruct (Ascii.eqb a c) eqn:E; [done|]. simpl. intros H.
    by rewrite IH.
Qed.

(** Splitting what [join] put together gives the pieces back. *)
Lemma split_join (c : ascii) (l : list string) :
  l ≠ [] → Forall (λ x, Str.contains c x = false) l →
  Str.split c (Str.join (String c "") l) = l.
Proof.
  induction l as [|x l IH]; [done|]. intros _ H. inversion H; subst.
  destruct l as [|y l].
  - simpl. by apply split_piece.
  - change (Str.join (String c "") (x :: y :: l))
      with (x +:+ String c (Str.join (String c "") (y :: l))).
    rewrite split_app by done. by rewrite IH.
Qed.

(** What the parser leaves as a component: not empty, not a dot, and
    without a separator. *)
Lemma of_string_tail (s : string) :
  Forall (λ x, PurePath.is_component x = true ∧ Str.contains "/" x = false)
         (tail (PurePath.of_string s)).
Proof.
  unfold PurePath.of_string. destruct (PurePath.splitroot s) as [r rel]. simpl.
  apply Forall_forall. intros x Hx. apply list_elem_of_filter in Hx as [H1 H2].
  split; [done|].
  pose proof (split_no_sep "/" rel) as H. rewrite Forall_forall in H. by apply H.
Qed.

Lemma filter_components (l : list string) :
  Forall (λ x, PurePath.is_component x = true ∧ Str.contains "/" x = false) l →
  filter (λ x, PurePath.is_component x = true) l = l.
Proof.
  induction 1 as [|x l [Hx _] _ IH]; [done|].
  by rewrite filter_cons_True, IH.
Qed.

Lemma component_startswith (x : string) :
  PurePath.is_component x = true → Str.contains "/" x = false →
  ∃ a x', x = String a x' ∧ Ascii.eqb a "/" = false.
Proof.
  destruct x as [|a x]; [done|]. simpl. intros _ H.
  exists a, x. split; [done|]. by destruct (Ascii.eqb a "/").
Qed.

Lemma join_components (x : string) (l : list string) :
  Forall (λ x, PurePath.is_component x = true ∧ Str.contains "/" x = false) (x :: l) →
  ∃ a j, Str.join "/" (x :: l) = String a j ∧ Ascii.eqb a "/" = false.
Proof.
  intros H. inversion H as [|? ? [H1 H2] _]; subst.
  destruct (component_startswith x H1 H2) as (a & x' & -> & Ha).
  destruct l as [|y l]; [by exists a, x'|].
  exists a, (x' +:+ "/" +:+ Str.join "/" (y :: l)). by split.
Qed.

(** The three roots, in front of something that does not start with a
    separator, are split off again. *)
Lemma splitroot_rel (a : ascii) (j : string) :
  Ascii.eqb a "/" = false →
  PurePath.splitroot (String a j) = ("", String a j)
  ∧ PurePath.splitroot ("/" +:+ String a j) = ("/", String a j)
  ∧ PurePath.splitroot ("//" +:+ String a j) = ("//", String a j).
Proof.
  destruct a as [[] [] [] [] [] [] [] []]; try discriminate; by intros _.
Qed.

Lemma splitroot_root (s : string) :
  (PurePath.splitroot s).1 = "" ∨ (PurePath.splitroot s).1 = "/"
  ∨ (PurePath.splitroot s).1 = "//".
Proof.
  destruct s as [|a s]; [by left|].
  destruct a as [[] [] [] [] [] [] [] []]; try by left.
  destruct s as [|b s]; [by right; left|].
  destruct b as [[] [] [] [] [] [] [] []]; try by (right; left).
  destruct s as [|c s]; [by right; right|].
  destruct c as [[] [] [] [] [] [] [] []]; try by (right; right).
  by right; left.
Qed.

(** A path read back from its own string is the same path. *)
Lemma of_string_fspath (s : string) :
  PurePath.of_string (PurePath.fspath (PurePath.of_string s)) = PurePath.of_string s.
Proof.
  pose proof (of_string_tail s) as Ht.
  assert (Hr : root (PurePath.of_string s) = "" ∨ root (PurePath.of_string s) = "/"
               ∨ root (PurePath.of_string s) = "//").
  { pose proof (splitroot_root s) as H. unfold PurePath.of_string.
    by destruct (PurePath.splitroot s). }
  destruct (PurePath.of_string s) as [r t]. simpl in *. unfold PurePath.fspath. simpl.
  destruct t as [|x l].
  - by destruct Hr as [->|[->| ->]].
  - destruct (join_components x l Ht) as (a & j & Hj & Ha). rewrite Hj.
    destruct (splitroot_rel a j Ha) as (S0 & S1 & S2).
    assert (Hsplit : filter (λ x, PurePath.is_component x = true)
                            (Str.split "/" (String a j)) = x :: l).
    { rewrite <- Hj. rewrite split_join; [by apply filter_components|done|].
      eapply Forall_impl; [exact Ht|]. by intros ? [_ ?]. }
    destruct Hr as [->|[->| ->]].
    + change (PurePath.of_string (String a j) = mkPath "" (x :: l)).
      unfold PurePath.of_string. by rewrite S0, Hsplit.
    + change (PurePath.of_string ("/" +:+ String a j) = mkPath "/" (x :: l)).
      unfold PurePath.of_string. by rewrite S1, Hsplit.
    + change (PurePath.of_string ("//" +:+ String a j) = mkPath "//" (x :: l)).
      unfold PurePath.of_string. by rewrite S2, Hsplit.
Qed.

Lemma removelast_last (l : list string) :
  l ≠ [] → removelast l ++ [List.last l ""] = l.
Proof. intros H. symmetry. by apply app_removelast_last. Qed.

Lemma name_nonempty_tail (p : Path) : PurePath.name p ≠ "" → tail p ≠ [].
Proof. unfold PurePath.name. by destruct (tail p). Qed.

(** Replacing the suffix of a path by the suffix it has gives the path
    back. *)
Lemma with_suffix_same (p : Path) :
  PurePath.suffix p = "." +:+ DEFAULT_SOURCE_EXTENSION →
  PurePath.with_suffix p ("." +:+ DEFAULT_SOURCE_EXTENSION) = Ok p.
Proof.
  intros Hs.
  assert (Hne : PurePath.suffix p ≠ "") by (by rewrite Hs).
  destruct (suffix_name p Hne) as [Hn Ht].
  unfold PurePath.with_suffix. simpl.
  rewrite (eqb_empty_false _ Hn), (eqb_empty_false _ Hne).
  rewrite Hs in Ht |- *. simpl in Ht |- *. rewrite Ht.
  rewrite removelast_last by by apply name_nonempty_tail.
  by destruct p.
Qed.

End PathFacts.

(** ** Format resolution *)

Section FormatFacts.

Context `{B : Backend}.

Lemma append_assoc (a b c : string) : (a +:+ b) +:+ c = a +:+ b +:+ c.
Proof.
  induction a as [|x a IH]; [reflexivity|].
  by rewrite !append_cons, IH.
Qed.

(** The supported suffixes are the supported formats, each after a dot. *)
Lemma elem_of_get_supported_suffixes (s : string) :
  s ∈ get_supported_suffixes ↔ ∃ f, f ∈ FORMATS ∧ s = "." +:+ f.
Proof.
  unfold get_supported_suffixes, get_supported_formats, Str.sorted.
  rewrite list_elem_of_fmap. split.
  - intros (f & -> & Hf). exists f. split; [|done].
    rewrite merge_sort_Permutation in Hf. by apply elem_of_elements.
  - intros (f & Hf & ->). exists f. split; [done|].
    rewrite merge_sort_Permutation. by apply elem_of_elements.
Qed.

Lemma verify_format_supported (f : string) :
  Str.lower f ∈ FORMATS → verify_format f = Ok tt.
Proof. intros H. unfold verify_format. by rewrite bool_decide_eq_true_2. Qed.

Lemma verify_format_unsupported (f : string) :
  Str.lower f ∉ FORMATS → ∃ m, verify_format f = Raise (ValueError m).
Proof.
  intros H. unfold verify_format. rewrite bool_decide_eq_false_2 by done.
  by eexists.
Qed.

Lemma infer_missing_suffix (outfile : Path) :
  PurePath.suffix outfile = "" →
  ∃ m, infer_rendering_format outfile = Raise (ValueError m).
Proof. intros H. unfold infer_rendering_format. rewrite H. by eexists. Qed.

Lemma infer_supported (outfile : Path) (s : string) :
  PurePath.suffix outfile = "." +:+ s → Str.lower s ∈ FORMATS →
  infer_rendering_format outfile = Ok (Str.lower s).
Proof.
  intros Hs Hf. change ("." +:+ s) with (String "." s) in Hs.
  unfold infer_rendering_format. rewrite Hs. simpl.
  rewrite verify_format_supported; [done|]. by rewrite lower_idemp.
Qed.

Lemma infer_unsupported (outfile : Path) (s : string) :
  PurePath.suffix outfile = "." +:+ s → Str.lower s ∉ FORMATS →
  ∃ m, infer_rendering_format outfile = Raise (ValueError m).
Proof.
  intros Hs Hf. change ("." +:+ s) with (String "." s) in Hs.
  unfold infer_rendering_format. rewrite Hs. simpl.
  destruct (verify_format_unsupported (Str.lower s)) as [m ->].
  - by rewrite lower_idemp.
  - by eexists.
Qed.

(** Inference succeeds exactly on a suffix that, lower-cased and
    without its dot, is a supported format. *)
Lemma infer_Ok_iff (outfile : Path) (X : string) :
  infer_rendering_format outfile = Ok X ↔
  ∃ s, PurePath.suffix outfile = "." +:+ s ∧ X = Str.lower s ∧ X ∈ FORMATS.
Proof.
  split.
  - intros H. destruct (suffix_cases outfile) as [Hs|[s Hs]].
    + destruct (infer_missing_suffix _ Hs) as [m Hm]. congruence.
    + exists s. split; [done|].
      destruct (decide (Str.lower s ∈ FORMATS)) as [Hf|Hf].
      * rewrite (infer_supported _ _ Hs Hf) in H. by injection H as <-.
      * destruct (infer_unsupported _ _ Hs Hf) as [m Hm]. congruence.
  - intros (s & Hs & -> & Hf). by apply infer_supported.
Qed.

(** A suffix that is empty or not supported makes the inference fail. *)
Lemma infer_fails (outfile : Path) :
  PurePath.suffix outfile = ""
  ∨ Str.lower (Str.drop 1 (PurePath.suffix outfile)) ∉ FORMATS →
  ∃ m, infer_rendering_format outfile = Raise (ValueError m).
Proof.
  intros [H|H]; [by apply infer_missing_suffix|].
  destruct (suffix_cases outfile) as [Hs|[s Hs]]; [by apply infer_missing_suffix|].
  rewrite Hs in H. simpl in H. by apply (infer_unsupported _ s).
Qed.

(** The assertion of [infer_rendering_format] never fails: the only
    exception it raises is [ValueError]. *)
Lemma infer_raises_ValueError (outfile : Path) (e : exn) :
  infer_rendering_format outfile = Raise e → is_ValueError e = true.
Proof.
  intros H. destruct (suffix_cases outfile) as [Hs|[s Hs]].
  - destruct (infer_missing_suffix _ Hs) as [m Hm]. rewrite Hm in H.
    by injection H as <-.
  - destruct (decide (Str.lower s ∈ FORMATS)) as [Hf|Hf].
    + by rewrite (infer_supported _ _ Hs Hf) in H.
    + destruct (infer_unsupported _ _ Hs Hf) as [m Hm]. rewrite Hm in H.
      by injection H as <-.
Qed.

Lemma cannot_infer_msg_names_suffixes (outfile : Path) :
  ∃ prefix,
    cannot_infer_msg outfile
    = prefix +:+ Str.repr_list get_supported_suffixes +:+ ")".
Proof.
  exists ("cannot infer rendering format"
          +:+ " from suffix " +:+ Str.repr (PurePath.suffix outfile)
          +:+ " of outfile: " +:+ Str.repr (PurePath.fspath outfile)
          +:+ " (provide format or outfile with a suffix"
          +:+ " from ").
  unfold cannot_infer_msg. by rewrite !append_assoc.
Qed.

End FormatFacts.

Section FormatClaims.

Context `{B : Backend}.

(** C1.  When the suffix of the outfile infers the supported format [X]
    and an explicit format [Y] is given whose lower-cased value differs
    from [X], [get_rendering_format] emits one warning of the category
    [FormatSuffixMismatchWarning] and returns [Y], the explicit format,
    as it was given. *)
Theorem get_rendering_format_mismatch (outfile : Path) (X Y : string)
    (w : World) :
  infer_rendering_format outfile = Ok X →
  Str.lower Y ≠ X →
  get_rendering_format outfile (Some Y) w
  = (w, [Warn FormatSuffixMismatchWarning (mismatch_msg X Y)], Ok Y).
Proof.
  intros HX HY. unfold get_rendering_format. rewrite HX.
  apply String.eqb_neq in HY. rewrite HY. reflexivity.
Qed.

(** C3.  When the suffix of the outfile is empty, or is not a supported
    format once its dot is removed and it is lower-cased: without an
    explicit format, [get_rendering_format] raises
    [RequiredArgumentError] with a message that ends in the list of the
    supported suffixes (the supported formats, each after a dot); with
    an explicit format [Y], it emits one [UnknownSuffixWarning] and
    returns [Y]. *)
Theorem get_rendering_format_unknown_suffix (outfile : Path) (w : World) :
  PurePath.suffix outfile = ""
  ∨ Str.lower (Str.drop 1 (PurePath.suffix outfile)) ∉ FORMATS →
  get_rendering_format outfile None w
  = (w, [], Raise (RequiredArgumentError (cannot_infer_msg outfile)))
  ∧ (∃ prefix, cannot_infer_msg outfile
               = prefix +:+ Str.repr_list get_supported_suffixes +:+ ")")
  ∧ (∀ s, s ∈ get_supported_suffixes ↔ ∃ f, f ∈ FORMATS ∧ s = "." +:+ f)
  ∧ (∀ Y, get_rendering_format outfile (Some Y) w
          = (w, [Warn UnknownSuffixWarning (unknown_suffix_msg outfile Y)],
             Ok Y)).
Proof.
  intros H. destruct (infer_fails outfile H) as [m Hm].
  unfold get_rendering_format. rewrite Hm.
  split; [reflexivity|]. split; [apply cannot_infer_msg_names_suffixes|].
  split; [apply elem_of_get_supported_suffixes|]. reflexivity.
Qed.

(** C7, as amended.  Whenever [get_rendering_format] returns [r], either
    [r] is the explicit format exactly as given (its letter case kept),
    or [r] is the format inferred from the suffix, which is lower-case.
    Which of the two is decided by a comparison that ignores case: an
    explicit format [Y] whose lower-cased value is the inferred format
    yields the inferred format, [Y] lower-cased, and no warning; an
    explicit format [Y] whose lower-cased value is not the inferred
    format, because the suffix gives another format or gives none,
    yields [Y] itself, letter for letter, after one warning.  Without an
    explicit format the result is the lower-cased suffix, validated after
    the lower-casing. *)
Theorem get_rendering_format_case (outfile : Path) (format : option string)
    (w w' : World) (evs : list event) (r : string) :
  get_rendering_format outfile format w = (w', evs, Ok r) →
  (format = Some r ∨ (infer_rendering_format outfile = Ok r ∧ Str.lower r = r))
  ∧ (∀ Y, format = Some Y → infer_rendering_format outfile = Ok (Str.lower Y) →
          r = Str.lower Y ∧ evs = [])
  ∧ (∀ Y, format = Some Y → infer_rendering_format outfile ≠ Ok (Str.lower Y) →
          r = Y ∧ ∃ c m, evs = [Warn c m])
  ∧ (format = None →
     infer_rendering_format outfile = Ok r ∧ Str.lower r = r ∧ evs = []
     ∧ ∃ s, PurePath.suffix outfile = "." +:+ s ∧ r = Str.lower s ∧ r ∈ FORMATS).
Proof.
  unfold get_rendering_format. intros H.
  destruct (infer_rendering_format outfile) as [X|e] eqn:HX.
  - assert (HlX : Str.lower X = X).
    { apply infer_Ok_iff in HX as (s & _ & -> & _). apply lower_idemp. }
    destruct format as [Y|].
    + destruct (String.eqb (Str.lower Y) X) eqn:E; simpl in H.
      * injection H as <- <- <-. apply String.eqb_eq in E.
        split; [by right|]. split; [|split; [|done]].
        -- intros Y' [= <-] _. by rewrite E.
        -- intros Y' [= <-] HY. by rewrite E in HY.
      * injection H as <- <- <-. split; [by left|].
        split; [|split; [|done]].
        -- intros Y' [= <-] [= HY]. apply String.eqb_neq in E. congruence.
        -- intros Y' [= <-] _. split; [done|]. by eexists _, _.
    + injection H as <- <- <-. split; [by right|]. split; [done|].
      split; [done|]. intros _. split; [done|]. split; [done|].
      split; [done|]. by apply infer_Ok_iff.
  - destruct e; destruct format; try discriminate.
    injection H as <- <- <-. split; [by left|]. split; [|split; [|done]].
    + intros Y' [= <-] ?. discriminate.
    + intros Y' [= <-] _. split; [done|]. by eexists _, _.
Qed.

End FormatClaims.

(** ** The effect monad *)

Section MonadFacts.

Context {A C : Type}.

Lemma bind_Ok (m : M A) (f : A → M C) w w1 e1 a :
  m w = (w1, e1, Ok a) →
  (m ≫= f) w = (let '(w2, e2, r) := f a w1 in (w2, e1 ++ e2, r)).
Proof. intros H. unfold mbind, M_bind. by rewrite H. Qed.

Lemma bind_Raise (m : M A) (f : A → M C) w w1 e1 e :
  m w = (w1, e1, Raise e) → (m ≫= f) w = (w1, e1, Raise e).
Proof. intros H. unfold mbind, M_bind. by rewrite H. Qed.

Lemma bind_Ok_inv (m : M A) (f : A → M C) w w2 evs c :
  (m ≫= f) w = (w2, evs, Ok c) →
  ∃ w1 e1 a e2,
    m w = (w1, e1, Ok a) ∧ f a w1 = (w2, e2, Ok c) ∧ evs = e1 ++ e2.
Proof.
  unfold mbind, M_bind. destruct (m w) as [[w1 e1] [a|e]]; [|discriminate].
  destruct (f a w1) as [[w2' e2] r] eqn:E. intros [= <- <- ->].
  by exists w1, e1, a, e2.
Qed.

Lemma preflight_ret (a : A) : preflight (mret a : M A).
Proof. intros w. exists [], (Ok a). by repeat split. Qed.

Lemma preflight_raise (e : exn) : preflight (raise e : M A).
Proof. intros w. exists [], (Raise e). by repeat split. Qed.

Lemma preflight_lift (r : result A) : preflight (lift r).
Proof. intros w. exists [], r. by repeat split. Qed.

Lemma preflight_bind (m : M A) (f : A → M C) :
  preflight m → (∀ a, preflight (f a)) → preflight (m ≫= f).
Proof.
  intros Hm Hf w. destruct (Hm w) as (e1 & [a|e] & E1 & F1 & R1).
  - destruct (Hf a w) as (e2 & r2 & E2 & F2 & R2).
    exists (e1 ++ e2), r2. rewrite (bind_Ok _ _ _ _ _ _ E1), E2.
    split; [done|]. split; [by apply Forall_app|].
    intros w1 Hw. by rewrite (bind_Ok _ _ _ _ _ _ (R1 w1 Hw)), (R2 w1 Hw).
  - exists e1, (Raise e). rewrite (bind_Raise _ _ _ _ _ _ E1).
    split; [done|]. split; [done|].
    intros w1 Hw. by rewrite (bind_Raise _ _ _ _ _ _ (R1 w1 Hw)).
Qed.

End MonadFacts.

Lemma preflight_warn (msg : string) (c : category) :
  preflight (warnings_warn msg c).
Proof.
  intros w. exists [Warn c msg], (Ok tt).
  split; [done|]. split; [|done]. by repeat constructor.
Qed.

Lemma preflight_resolve (p : Path) : preflight (resolve p).
Proof.
  intros w. exists [Resolve p], (Ok (fs_resolve w p)).
  split; [done|]. split; [by repeat constructor|].
  intros w1 Hw. unfold resolve. by rewrite Hw.
Qed.

Ltac preflight_step :=
  first
    [ apply preflight_ret | apply preflight_raise | apply preflight_lift
    | apply preflight_warn | apply preflight_resolve
    | apply preflight_bind; [|intros ?]
    | match goal with
      | |- preflight (if ?b then _ else _) => destruct b
      | |- preflight (match ?x with _ => _ end) => destruct x
      end ].

Section RenderFacts.

Context `{B : Backend}.

Lemma preflight_get_rendering_format (outfile : Path) (format : option string) :
  preflight (get_rendering_format outfile format).
Proof. unfold get_rendering_format. repeat preflight_step. Qed.

Lemma preflight_render_outfile engine format filepath renderer formatter
    outfile overwrite_filepath :
  preflight (render_outfile engine format filepath renderer formatter
                            outfile overwrite_filepath).
Proof.
  unfold render_outfile.
  apply preflight_bind; [apply preflight_get_rendering_format|intros ?].
  repeat preflight_step.
Qed.

Lemma preflight_render_default engine format filepath renderer formatter :
  preflight (render_default engine format filepath renderer formatter).
Proof. unfold render_default. repeat preflight_step. Qed.

Lemma preflight_render_request engine format filepath renderer formatter
    outfile raise_if_result_exists overwrite_filepath :
  preflight (render_request engine format filepath renderer formatter
                            outfile raise_if_result_exists overwrite_filepath).
Proof.
  unfold render_request.
  destruct (_ && _); [apply preflight_raise|].
  destruct (promote_pathlike outfile);
    [apply preflight_render_outfile|].
  destruct format; [|apply preflight_raise].
  destruct (promote_pathlike filepath); [|apply preflight_raise].
  apply preflight_render_default.
Qed.

(** [render] is its request followed by the existence check and the
    subprocess. *)
Lemma render_eq engine format filepath renderer formatter quiet outfile
    raise_if_result_exists overwrite_filepath w :
  render engine format filepath renderer formatter quiet outfile
         raise_if_result_exists overwrite_filepath w
  = match render_request engine format filepath renderer formatter outfile
                         raise_if_result_exists overwrite_filepath w with
    | (w0, e0, Raise e) => (w0, e0, Raise e)
    | (w0, e0, Ok (cmd, filepath, rendered)) =>
        let e1 := if raise_if_result_exists
                  then [Exists (PurePath.fspath rendered)] else [] in
        if raise_if_result_exists && fs_exists w0 (PurePath.fspath rendered)
        then (w0, e0 ++ e1, Raise (result_exists_error rendered))
        else
          match run_check cmd (cwd_of filepath) quiet true w0 with
          | (w1, r) =>
              (w1, e0 ++ e1 ++ [RunCheck cmd (cwd_of filepath) quiet true],
               match r with
               | Ok _ => Ok (PurePath.fspath rendered)
               | Raise e => Raise e
               end)
          end
    end.
Proof.
  unfold render, mbind at 1, M_bind at 1.
  destruct (render_request _ _ _ _ _ _ _ _ w) as [[w0 e0] [[[cmd fp] rendered]|e]];
    [|reflexivity].
  destruct raise_if_result_exists; simpl.
  - unfold mbind, M_bind, os_path_exists, execute_run_check.
    destruct (fs_exists w0 (PurePath.fspath rendered)); simpl; [reflexivity|].
    destruct (run_check _ _ _ _ _) as [w1 [[]|e]]; reflexivity.
  - unfold mbind, M_bind, execute_run_check. simpl.
    destruct (run_check _ _ _ _ _) as [w1 [[]|e]]; reflexivity.
Qed.

(** The explicit-output branch, step by step. *)
Lemma render_outfile_eq engine format filepath renderer formatter outfile
    overwrite_filepath w :
  render_outfile engine format filepath renderer formatter outfile
                 overwrite_filepath w
  = match get_rendering_format outfile format w with
    | (w0, e1, Raise e) => (w0, e1, Raise e)
    | (w0, e1, Ok fmt) =>
        match command engine fmt renderer formatter with
        | Raise e => (w0, e1, Raise e)
        | Ok prefix =>
            match source_path filepath outfile with
            | Raise e => (w0, e1, Raise e)
            | Ok fp =>
                let check := negb overwrite_filepath
                             && String.eqb (PurePath.name outfile) (PurePath.name fp) in
                let e2 := if check then [Resolve outfile; Resolve fp] else [] in
                if check && bool_decide (fs_resolve w0 outfile = fs_resolve w0 fp)
                then (w0, e1 ++ e2, Raise (same_file_error outfile fp))
                else
                  let differ :=
                    bool_decide (PurePath.parent outfile ≠ PurePath.parent fp) in
                  (w0, e1 ++ e2 ++ (if differ then [Resolve outfile] else []),
                   Ok (prefix ++ [StrArg "-o";
                                  if differ then PathArg (fs_resolve w0 outfile)
                                  else StrArg (PurePath.name outfile);
                                  StrArg (PurePath.name fp)],
                       fp, outfile))
            end
        end
    end.
Proof.
  unfold render_outfile, mbind at 1, M_bind at 1.
  destruct (get_rendering_format outfile format w) as [[w0 e1] [fmt|e]];
    [|reflexivity].
  unfold mbind, M_bind, lift, resolve, raise, mret, M_ret.
  destruct (command engine fmt renderer formatter) as [prefix|e];
    [|by rewrite app_nil_r].
  destruct (source_path filepath outfile) as [fp|e];
    [|by rewrite app_nil_r].
  destruct overwrite_filepath; simpl.
  - destruct (bool_decide (PurePath.parent outfile ≠ PurePath.parent fp));
      by rewrite ?app_nil_r.
  - destruct (String.eqb (PurePath.name outfile) (PurePath.name fp)); simpl.
    + destruct (bool_decide (fs_resolve w0 outfile = fs_resolve w0 fp)); simpl;
        [reflexivity|].
      destruct (bool_decide (PurePath.parent outfile ≠ PurePath.parent fp));
        by rewrite ?app_nil_r.
    + destruct (bool_decide (PurePath.parent outfile ≠ PurePath.parent fp));
        by rewrite ?app_nil_r.
Qed.

(** The default-naming branch, step by step. *)
Lemma render_default_eq engine format filepath renderer formatter w :
  render_default engine format filepath renderer formatter w
  = match command engine format renderer formatter with
    | Raise e => (w, [], Raise e)
    | Ok prefix =>
        (w, [],
         Ok (prefix ++ [StrArg "-O"; StrArg (PurePath.name filepath)],
             filepath,
             PurePath.parent filepath
               // (PurePath.name filepath +:+ "."
                   +:+ Str.join "." (omap id [formatter; renderer; Some format]))))
    end.
Proof.
  unfold render_default, mbind, M_bind, lift, mret, M_ret.
  by destruct (command engine format renderer formatter).
Qed.

(** The request leaves the world as it is and does not run the engine. *)
Lemma render_request_world engine format filepath renderer formatter outfile
    raise_if_result_exists overwrite_filepath w w0 e0 r :
  render_request engine format filepath renderer formatter outfile
                 raise_if_result_exists overwrite_filepath w = (w0, e0, r) →
  w0 = w ∧ Forall (λ e, is_RunCheck e = false) e0.
Proof.
  intros H.
  destruct (preflight_render_request engine format filepath renderer formatter
              outfile raise_if_result_exists overwrite_filepath w)
    as (evs & r' & E & F & _).
  rewrite E in H. by injection H as <- <- <-.
Qed.

(** The comparison of the two paths, once the steps before it pass. *)
Lemma render_collision engine format filepath renderer formatter quiet
    outfile raise_if_result_exists w e1 fmt prefix fp :
  let out := PurePath.of_string outfile in
  get_rendering_format out format w = (w, e1, Ok fmt) →
  command engine fmt renderer formatter = Ok prefix →
  source_path (promote_pathlike filepath) out = Ok fp →
  PurePath.name out = PurePath.name fp →
  fs_resolve w out = fs_resolve w fp →
  render engine format filepath renderer formatter quiet (Some outfile)
         raise_if_result_exists false w
  = (w, e1 ++ [Resolve out; Resolve fp], Raise (same_file_error out fp)).
Proof.
  intros out Hfmt Hcmd Hsrc Hname Hres.
  rewrite render_eq. unfold render_request.
  rewrite andb_false_r. simpl. fold out.
  rewrite render_outfile_eq, Hfmt, Hcmd, Hsrc. simpl.
  rewrite Hname, String.eqb_refl, bool_decide_eq_true_2 by done.
  reflexivity.
Qed.

End RenderFacts.

(** ** The render orchestrator *)

Section RenderClaims.

Context `{B : Backend}.

(** C5.  With [raise_if_result_exists] and [overwrite_filepath] both
    set, [render] raises the [ValueError] about the two flags, whatever
    the other arguments and whatever the world: no event has happened
    (no path was resolved, no file looked up, no warning, no
    subprocess) and the world is the one the call started in. *)
Theorem render_exclusive_flags engine format filepath renderer formatter
    quiet outfile w :
  render engine format filepath renderer formatter quiet outfile true true w
  = (w, [], Raise exclusive_error).
Proof. rewrite render_eq. unfold render_request. reflexivity. Qed.

(** C6.  With [raise_if_result_exists] set: when the call gets as far as
    its result path [rendered] and a file exists there, [render] raises
    [FileExistsError], the existence check being the last event, and
    the subprocess is not run.  Consequently, after a first call that
    returned [r], in a world where the file [r] now exists and paths
    resolve as before, the same call raises [FileExistsError] for [r]
    without running the subprocess. *)
Theorem render_result_exists engine format filepath renderer formatter
    quiet outfile overwrite_filepath w :
  (∀ w0 e0 cmd fp rendered,
     render_request engine format filepath renderer formatter outfile
                    true overwrite_filepath w = (w0, e0, Ok (cmd, fp, rendered)) →
     fs_exists w (PurePath.fspath rendered) = true →
     render engine format filepath renderer formatter quiet outfile
            true overwrite_filepath w
     = (w, e0 ++ [Exists (PurePath.fspath rendered)],
        Raise (result_exists_error rendered))
     ∧ Forall (λ e, is_RunCheck e = false)
              (e0 ++ [Exists (PurePath.fspath rendered)]))
  ∧ (∀ w1 evs r,
       render engine format filepath renderer formatter quiet outfile
              true overwrite_filepath w = (w1, evs, Ok r) →
       (∀ p, fs_resolve w1 p = fs_resolve w p) →
       fs_exists w1 r = true →
       ∃ evs2,
         render engine format filepath renderer formatter quiet outfile
                true overwrite_filepath w1
         = (w1, evs2,
            Raise (FileExistsError ("output file exists: " +:+ Str.repr r)))
         ∧ Forall (λ e, is_RunCheck e = false) evs2).
Proof.
  split.
  - intros w0 e0 cmd fp rendered Hreq Hex.
    destruct (render_request_world _ _ _ _ _ _ _ _ _ _ _ _ Hreq) as [-> Hno].
    rewrite render_eq, Hreq, Hex. simpl. split; [reflexivity|].
    apply Forall_app. split; [done|]. by repeat constructor.
  - intros w1 evs r Hr Hres Hex. rewrite render_eq in Hr.
    destruct (preflight_render_request engine format filepath renderer
                formatter outfile true overwrite_filepath w)
      as (e0 & req & E & Hno & Hsame).
    rewrite E in Hr. destruct req as [[[cmd fp] rendered]|e]; [|discriminate].
    simpl in Hr.
    destruct (fs_exists w (PurePath.fspath rendered)); [discriminate|].
    destruct (run_check _ _ _ _ _) as [w1' [[]|e]]; [|discriminate].
    injection Hr as -> <- <-.
    exists (e0 ++ [Exists (PurePath.fspath rendered)]).
    rewrite render_eq, (Hsame w1 Hres), Hex. simpl. split; [reflexivity|].
    apply Forall_app. split; [done|]. by repeat constructor.
Qed.

(** C2.  Without an outfile and with a format [F] and a filepath [P]:
    the path [render] returns is the directory of [P] joined with the
    name of [P], a dot, and the dot-joined values among formatter,
    renderer and [F] that are given, in this order.  And [render] does
    return it when the two flags are not both set, the command is
    built, no file is in the way of [raise_if_result_exists], and the
    subprocess succeeds. *)
Theorem render_default_result engine F P renderer formatter quiet
    raise_if_result_exists overwrite_filepath w :
  let filepath := PurePath.of_string P in
  let rendered :=
    PurePath.parent filepath
      // (PurePath.name filepath +:+ "."
          +:+ Str.join "." (omap id [formatter; renderer; Some F])) in
  (∀ w1 evs r,
     render engine (Some F) (Some P) renderer formatter quiet None
            raise_if_result_exists overwrite_filepath w = (w1, evs, Ok r) →
     r = PurePath.fspath rendered)
  ∧ (∀ prefix w1,
       raise_if_result_exists && overwrite_filepath = false →
       command engine F renderer formatter = Ok prefix →
       (raise_if_result_exists = true →
        fs_exists w (PurePath.fspath rendered) = false) →
       run_check (prefix ++ [StrArg "-O"; StrArg (PurePath.name filepath)])
                 (cwd_of filepath) quiet true w = (w1, Ok tt) →
       ∃ evs,
         render engine (Some F) (Some P) renderer formatter quiet None
                raise_if_result_exists overwrite_filepath w
         = (w1, evs, Ok (PurePath.fspath rendered))).
Proof.
  intros filepath rendered. split.
  - intros w1 evs r. rewrite render_eq. unfold render_request.
    destruct (raise_if_result_exists && overwrite_filepath); [discriminate|].
    simpl. rewrite render_default_eq.
    destruct (command engine F renderer formatter) as [prefix|e]; [|discriminate].
    destruct (_ && _); [discriminate|].
    destruct (run_check _ _ _ _ _) as [w1' [[]|e]]; [|discriminate].
    by intros [= _ _ <-].
  - intros prefix w1 Hflags Hcmd Hex Hrun.
    rewrite render_eq. unfold render_request. rewrite Hflags. simpl.
    rewrite render_default_eq, Hcmd.
    fold filepath. fold rendered.
    destruct raise_if_result_exists; simpl.
    + rewrite (Hex eq_refl), Hrun. by eexists.
    + rewrite Hrun. by eexists.
Qed.

(** C4, as amended.  In the explicit-output mode, once the format is
    resolved, the command is built and the source path [fp] is known
    (given, or derived from the outfile): if the outfile and [fp] have
    the same name and resolve to the same path, then without
    [overwrite_filepath] the call raises the same-file [ValueError]
    right after resolving the two paths; with [overwrite_filepath] and
    without [raise_if_result_exists] the two paths are not compared, the
    subprocess is run, and the outcome of the call is the outcome of the
    subprocess; with both flags the call raises the other [ValueError],
    the one about the two flags. *)
Theorem render_same_file engine format filepath renderer formatter quiet
    outfile raise_if_result_exists w e1 fmt prefix fp :
  let out := PurePath.of_string outfile in
  get_rendering_format out format w = (w, e1, Ok fmt) →
  command engine fmt renderer formatter = Ok prefix →
  source_path (promote_pathlike filepath) out = Ok fp →
  PurePath.name out = PurePath.name fp →
  fs_resolve w out = fs_resolve w fp →
  render engine format filepath renderer formatter quiet (Some outfile)
         raise_if_result_exists false w
  = (w, e1 ++ [Resolve out; Resolve fp], Raise (same_file_error out fp))
  ∧ (∃ cmd e2,
       Forall (λ e, e ≠ Resolve fp) e2 ∧
       render engine format filepath renderer formatter quiet (Some outfile)
              false true w
       = (let '(w1, r) := run_check cmd (cwd_of fp) quiet true w in
          (w1, e1 ++ e2 ++ [RunCheck cmd (cwd_of fp) quiet true],
           match r with
           | Ok _ => Ok (PurePath.fspath out)
           | Raise e => Raise e
           end)))
  ∧ render engine format filepath renderer formatter quiet (Some outfile)
           true true w = (w, [], Raise exclusive_error)
  ∧ exclusive_error ≠ same_file_error out fp.
Proof.
  intros out Hfmt Hcmd Hsrc Hname Hres.
  split; [|split; [|split; [reflexivity|discriminate]]].
  - by apply (render_collision _ _ _ _ _ _ _ _ _ _ fmt prefix).
  - rewrite render_eq. unfold render_request. simpl. fold out.
    rewrite render_outfile_eq, Hfmt, Hcmd, Hsrc. simpl.
    destruct (bool_decide (PurePath.parent out ≠ PurePath.parent fp)) eqn:Hd;
      simpl; rewrite <- app_assoc.
    + eexists _, [Resolve out]. split; [|reflexivity].
      constructor; [|constructor]. intros [= E].
      apply bool_decide_eq_true_1 in Hd. by rewrite E in Hd.
    + by eexists _, [].
Qed.

(** C10, as amended.  With an outfile whose suffix is the default source
    suffix and no filepath: the derived source path is the outfile
    itself; so, once the format is resolved and the command is built,
    [render] without [overwrite_filepath] raises the same-file
    [ValueError]; and in no case does [render] without
    [overwrite_filepath] return a result for such a call. *)
Theorem render_outfile_named_like_source engine format renderer formatter
    quiet outfile raise_if_result_exists w :
  let out := PurePath.of_string outfile in
  PurePath.suffix out = "." +:+ DEFAULT_SOURCE_EXTENSION →
  source_path None out = Ok out
  ∧ (∀ e1 fmt prefix,
       get_rendering_format out format w = (w, e1, Ok fmt) →
       command engine fmt renderer formatter = Ok prefix →
       render engine format None renderer formatter quiet (Some outfile)
              raise_if_result_exists false w
       = (w, e1 ++ [Resolve out; Resolve out], Raise (same_file_error out out)))
  ∧ (∀ w1 evs r,
       render engine format None renderer formatter quiet (Some outfile)
              raise_if_result_exists false w ≠ (w1, evs, Ok r)).
Proof.
  intros out Hs.
  assert (Hsrc : source_path None out = Ok out) by by apply with_suffix_same.
  split; [done|]. split.
  - intros e1 fmt prefix Hfmt Hcmd.
    by apply (render_collision engine format None renderer formatter quiet
                outfile raise_if_result_exists w e1 fmt prefix out).
  - intros w1 evs r. rewrite render_eq. unfold render_request.
    rewrite andb_false_r. simpl. fold out.
    rewrite render_outfile_eq, Hsrc.
    destruct (get_rendering_format out format w) as [[w0 e1] [fmt|e]];
      [|discriminate].
    destruct (command engine fmt renderer formatter); [|discriminate].
    simpl. rewrite String.eqb_refl, bool_decide_eq_true_2 by done.
    discriminate.
Qed.

(** C9.  In the explicit-output mode, the command [render] hands to
    the subprocess is the command prefix followed by [-o], the outfile
    argument and the name of the source path [fp]; the outfile argument
    is the resolved outfile when the parent of the outfile differs from
    the parent of [fp], and the bare name of the outfile otherwise.  And
    the subprocess is handed this command whenever the steps before it
    pass. *)
Theorem render_outfile_argument engine format filepath renderer formatter
    quiet outfile raise_if_result_exists overwrite_filepath w :
  let out := PurePath.of_string outfile in
  let outfile_arg fp :=
    if bool_decide (PurePath.parent out ≠ PurePath.parent fp)
    then PathArg (fs_resolve w out)
    else StrArg (PurePath.name out) in
  (∀ w1 evs r cmd cwd q c,
     render engine format filepath renderer formatter quiet (Some outfile)
            raise_if_result_exists overwrite_filepath w = (w1, evs, r) →
     RunCheck cmd cwd q c ∈ evs →
     ∃ e1 fmt prefix fp,
       get_rendering_format out format w = (w, e1, Ok fmt)
       ∧ command engine fmt renderer formatter = Ok prefix
       ∧ source_path (promote_pathlike filepath) out = Ok fp
       ∧ cmd = prefix ++ [StrArg "-o"; outfile_arg fp; StrArg (PurePath.name fp)])
  ∧ (∀ e1 fmt prefix fp,
       raise_if_result_exists && overwrite_filepath = false →
       get_rendering_format out format w = (w, e1, Ok fmt) →
       command engine fmt renderer formatter = Ok prefix →
       source_path (promote_pathlike filepath) out = Ok fp →
       negb overwrite_filepath
       && String.eqb (PurePath.name out) (PurePath.name fp)
       && bool_decide (fs_resolve w out = fs_resolve w fp) = false →
       (raise_if_result_exists = true →
        fs_exists w (PurePath.fspath out) = false) →
       ∃ w1 evs0 r,
         render engine format filepath renderer formatter quiet (Some outfile)
                raise_if_result_exists overwrite_filepath w
         = (w1,
            evs0 ++ [RunCheck (prefix ++ [StrArg "-o"; outfile_arg fp;
                                          StrArg (PurePath.name fp)])
                              (cwd_of fp) quiet true],
            r)).
Proof.
  intros out outfile_arg. split.
  - intros w1 evs r cmd cwd q c H Hin. rewrite render_eq in H.
    destruct (render_request _ _ _ _ _ _ _ _ w) as [[w0 e0] req] eqn:Hreq.
    destruct (render_request_world _ _ _ _ _ _ _ _ _ _ _ _ Hreq) as [-> Hno].
    rewrite Forall_forall in Hno.
    assert (Hcmd0 : ∃ cmd0 fp rendered, req = Ok (cmd0, fp, rendered) ∧ cmd = cmd0).
    { destruct req as [[[cmd0 fp] rendered]|e].
      - exists cmd0, fp, rendered. split; [done|]. simpl in H.
        destruct (_ && fs_exists _ _).
        + injection H as <- <- <-. apply elem_of_app in Hin as [Hin|Hin].
          * by apply Hno in Hin.
          * destruct raise_if_result_exists; [|by apply elem_of_nil in Hin].
            by apply list_elem_of_singleton in Hin.
        + destruct (run_check _ _ _ _ _) as [w1' r']. injection H as <- <- <-.
          apply elem_of_app in Hin as [Hin|Hin]; [by apply Hno in Hin|].
          apply elem_of_app in Hin as [Hin|Hin].
          * destruct raise_if_result_exists; [|by apply elem_of_nil in Hin].
            by apply list_elem_of_singleton in Hin.
          * apply list_elem_of_singleton in Hin. by injection Hin.
      - injection H as <- <- <-. by apply Hno in Hin. }
    destruct Hcmd0 as (cmd0 & fp & rendered & -> & <-). clear H Hin Hno.
    unfold render_request in Hreq.
    destruct (_ && _); [discriminate|]. simpl in Hreq. fold out in Hreq.
    rewrite render_outfile_eq in Hreq.
    destruct (preflight_get_rendering_format out format w)
      as (e1 & rf & E & _ & _).
    rewrite E in Hreq. destruct rf as [fmt|e]; [|discriminate].
    destruct (command engine fmt renderer formatter) as [prefix|e] eqn:Hc;
      [|discriminate].
    destruct (source_path (promote_pathlike filepath) out) as [fp'|e] eqn:Hs;
      [|discriminate].
    simpl in Hreq. destruct (_ && bool_decide _); [discriminate|].
    injection Hreq as _ <- <- _. by exists e1, fmt, prefix, fp'.
  - intros e1 fmt prefix fp Hflags Hfmt Hcmd Hsrc Hcheck Hex.
    rewrite render_eq. unfold render_request. rewrite Hflags. simpl. fold out.
    rewrite render_outfile_eq, Hfmt, Hcmd, Hsrc. simpl. rewrite Hcheck.
    assert (Hfound : raise_if_result_exists && fs_exists w (PurePath.fspath out)
                     = false).
    { destruct raise_if_result_exists; [|done]. by rewrite Hex. }
    rewrite Hfound. destruct (run_check _ _ _ _ _) as [w1 r'].
    eexists w1, _, _. rewrite !app_assoc. reflexivity.
Qed.

(** C8.  In the explicit-output mode, a call that returns returns the
    outfile as a string: the [os.fspath] of the outfile path, whatever
    the world resolves it to.  Read back as a path it is the outfile, and
    it is absolute only if the outfile was given so. *)
Theorem render_outfile_result engine format filepath renderer formatter
    quiet outfile raise_if_result_exists overwrite_filepath w w1 evs r :
  render engine format filepath renderer formatter quiet (Some outfile)
         raise_if_result_exists overwrite_filepath w = (w1, evs, Ok r) →
  r = PurePath.fspath (PurePath.of_string outfile)
  ∧ PurePath.of_string r = PurePath.of_string outfile
  ∧ PurePath.is_absolute (PurePath.of_string r)
    = PurePath.is_absolute (PurePath.of_string outfile).
Proof.
  intros H.
  assert (Hr : r = PurePath.fspath (PurePath.of_string outfile)).
  { revert H. rewrite render_eq. unfold render_request.
    destruct (raise_if_result_exists && overwrite_filepath); [discriminate|].
    simpl. rewrite render_outfile_eq.
    destruct (get_rendering_format _ format w) as [[w0 e1] [fmt|e]];
      [|discriminate].
    destruct (command engine fmt renderer formatter); [|discriminate].
    destruct (source_path _ _); [|discriminate].
    simpl. destruct (_ && bool_decide _); [discriminate|].
    destruct (_ && fs_exists _ _); [discriminate|].
    destruct (run_check _ _ _ _ _) as [w1' [[]|e]]; [|discriminate].
    by intros [= _ _ <-]. }
  subst r. by rewrite of_string_fspath.
Qed.

End RenderClaims.

(** * Further properties of the module *)

(** ** The order of strings *)

Section OrderFacts.

Lemma leb_cons (a b : ascii) (s t : string) :
  String.leb (String a s) (String b t)
  = match Ascii.compare a b with
    | Eq => String.leb s t
    | Lt => true
    | Gt => false
    end.
Proof. unfold String.leb. simpl. by destruct (Ascii.compare a b). Qed.

Lemma le_trans (s1 s2 s3 : string) : Str.le s1 s2 → Str.le s2 s3 → Str.le s1 s3.
Proof.
  unfold Str.le. revert s2 s3.
  induction s1 as [|a s1 IH]; intros [|b s2] [|c s3]; try done.
  rewrite !leb_cons. unfold Ascii.compare.
  destruct (N.compare_spec (N_of_ascii a) (N_of_ascii b)) as [Hab|Hab|Hab];
    destruct (N.compare_spec (N_of_ascii b) (N_of_ascii c)) as [Hbc|Hbc|Hbc];
    destruct (N.compare_spec (N_of_ascii a) (N_of_ascii c)) as [Hac|Hac|Hac];
    try done; try lia.
  apply IH.
Qed.

Global Instance le_total : Total Str.le.
Proof. intros a b. apply String.leb_total. Qed.

Global Instance le_transitive : Transitive Str.le.
Proof. intros a b c. apply le_trans. Qed.

Lemma le_dot (a b : string) : Str.le a b → Str.le ("." +:+ a) ("." +:+ b).
Proof.
  unfold Str.le. change ("." +:+ a) with (String "." a).
  change ("." +:+ b) with (String "." b). by rewrite leb_cons.
Qed.

Global Instance dot_inj : Inj (=) (=) (λ format : string, "." +:+ format).
Proof. intros a b H. by injection H. Qed.

Lemma lower_dot (s : string) : Str.lower ("." +:+ s) = "." +:+ Str.lower s.
Proof. reflexivity. Qed.

End OrderFacts.

Section RegistryProperties.

Context `{B : Backend}.

(** X1.  [get_supported_formats] lists the supported formats in
    ascending order: every entry is at most each entry after it, no
    format is listed twice, and the entries are exactly the formats of
    the registry. *)
Theorem get_supported_formats_sorted :
  StronglySorted Str.le get_supported_formats
  ∧ NoDup get_supported_formats
  ∧ length get_supported_formats = size FORMATS
  ∧ ∀ f, f ∈ get_supported_formats ↔ f ∈ FORMATS.
Proof.
  unfold get_supported_formats, Str.sorted. split; [|split; [|split]].
  - apply StronglySorted_merge_sort; apply _.
  - rewrite merge_sort_Permutation. apply NoDup_elements.
  - by rewrite merge_sort_Permutation.
  - intros f. rewrite merge_sort_Permutation. apply elem_of_elements.
Qed.

(** X2.  [get_supported_suffixes] has one suffix per supported format, a
    dot followed by the format, in the order of [get_supported_formats]:
    the list is ascending as well and without duplicates. *)
Theorem get_supported_suffixes_sorted :
  length get_supported_suffixes = size FORMATS
  ∧ (∀ i, get_supported_suffixes !! i
          = (λ f, "." +:+ f) <$> get_supported_formats !! i)
  ∧ StronglySorted Str.le get_supported_suffixes
  ∧ NoDup get_supported_suffixes.
Proof.
  unfold get_supported_suffixes. split; [|split; [|split]].
  - rewrite length_fmap. unfold get_supported_formats, Str.sorted.
    by rewrite merge_sort_Permutation.
  - intros i. apply list_lookup_fmap.
  - apply (StronglySorted_fmap _ Str.le).
    + intros x y. apply le_dot.
    + unfold get_supported_formats, Str.sorted.
      apply StronglySorted_merge_sort; apply _.
  - apply NoDup_fmap_2; [apply _|].
    unfold get_supported_formats, Str.sorted.
    rewrite merge_sort_Permutation. apply NoDup_elements.
Qed.

(** X4. [promote_pathlike] keeps the absence of an argument, and a path
    object goes through it unchanged: promoting the string of a promoted
    path gives the same path again. *)
Theorem promote_pathlike_idempotent (filepath : option string) :
  (promote_pathlike filepath = None ↔ filepath = None)
  ∧ promote_pathlike (PurePath.fspath <$> promote_pathlike filepath)
    = promote_pathlike filepath.
Proof.
  destruct filepath as [s|]; simpl; [|done]. split; [done|].
  by rewrite of_string_fspath.
Qed.

End RegistryProperties.

(** ** Suffixes *)

Section SuffixFacts.

Lemma length_append (a b : string) :
  String.length (a +:+ b) = String.length a + String.length b.
Proof.
  induction a as [|x a IH]; [done|]. rewrite append_cons. simpl. by rewrite IH.
Qed.

Lemma drop_append (a b : string) : Str.drop (String.length a) (a +:+ b) = b.
Proof. induction a as [|x a IH]; [by destruct b|]. by rewrite append_cons. Qed.

Lemma rfind_None (c : ascii) (s : string) :
  Str.contains c s = false → Str.rfind c s = None.
Proof.
  induction s as [|a s IH]; [done|]. simpl.
  destruct (Ascii.eqb a c); [done|]. simpl. intros H. by rewrite IH.
Qed.

(** The last separator of a string is the one in front of a piece
    without separator. *)
Lemma rfind_append (c : ascii) (stem ext : string) :
  Str.contains c ext = false →
  Str.rfind c (stem +:+ String c ext) = Some (String.length stem).
Proof.
  intros H. induction stem as [|a stem IH].
  - change ("" +:+ String c ext) with (String c ext). simpl.
    by rewrite (rfind_None _ _ H), Ascii.eqb_refl.
  - rewrite append_cons. simpl. by rewrite IH.
Qed.

Lemma rfind_None_inv (c : ascii) (s : string) :
  Str.rfind c s = None → Str.contains c s = false.
Proof.
  induction s as [|a s IH]; [done|]. simpl.
  destruct (Str.rfind c s); [done|]. destruct (Ascii.eqb a c); [done|].
  intros _. by apply IH.
Qed.

(** No separator comes after the last one. *)
Lemma rfind_last (c : ascii) (s : string) (i : nat) :
  Str.rfind c s = Some i → Str.contains c (Str.drop (S i) s) = false.
Proof.
  revert i. induction s as [|a s IH]; [done|]. simpl. intros i.
  destruct (Str.rfind c s) as [j|] eqn:E.
  - intros [= <-]. by apply IH.
  - destruct (Ascii.eqb a c); [|done]. intros [= <-].
    destruct s; [done|]. by apply rfind_None_inv.
Qed.

Lemma drop_S (i : nat) (s : string) :
  Str.drop (S i) s = Str.drop 1 (Str.drop i s).
Proof.
  revert s. induction i as [|i IH]; intros [|a s]; try done.
  change (Str.drop (S (S i)) (String a s)) with (Str.drop (S i) s).
  by rewrite IH.
Qed.

Lemma contains_lower_dot (s : string) :
  Str.contains "." (Str.lower s) = Str.contains "." s.
Proof.
  induction s as [|a s IH]; [done|]. simpl. rewrite IH. f_equal.
  by destruct a as [[] [] [] [] [] [] [] []].
Qed.

Lemma lower_nonempty (s : string) : s ≠ "" → Str.lower s ≠ "".
Proof. by destruct s. Qed.

(** A suffix is a dot and a non-empty rest without dot. *)
Lemma suffix_shape (p : Path) (s : string) :
  PurePath.suffix p = String "." s → s ≠ "" ∧ Str.contains "." s = false.
Proof.
  unfold PurePath.suffix.
  destruct (Str.rfind "." (PurePath.name p)) as [i|] eqn:E; [|done].
  destruct (Nat.ltb 0 i && Nat.ltb i (String.length (PurePath.name p) - 1)) eqn:Hi;
    [|done].
  intros Hs. apply andb_true_iff in Hi as [_ Hi]. apply Nat.ltb_lt in Hi.
  pose proof (rfind_last _ _ _ E) as Hl.
  pose proof (length_drop i (PurePath.name p)) as Hlen.
  rewrite drop_S, Hs in Hl. simpl in Hl. split; [|done].
  intros ->. rewrite Hs in Hlen. simpl in Hlen. lia.
Qed.

(** The suffix of a name read as stem, dot, extension. *)
Lemma suffix_of_name (p : Path) (stem ext : string) :
  PurePath.name p = stem +:+ "." +:+ ext →
  Str.contains "." ext = false →
  PurePath.suffix p
  = if bool_decide (stem ≠ "" ∧ ext ≠ "") then "." +:+ ext else "".
Proof.
  intros Hn He. unfold PurePath.suffix. rewrite Hn.
  change (stem +:+ "." +:+ ext) with (stem +:+ String "." ext).
  rewrite (rfind_append _ _ _ He), length_append, drop_append. simpl.
  destruct stem as [|a stem]; [by rewrite bool_decide_eq_false_2 by (by intros [? _])|].
  destruct ext as [|b ext].
  - rewrite bool_decide_eq_false_2 by (by intros [_ ?]). simpl.
    replace (String.length stem + 1 - 0) with (S (String.length stem)) by lia.
    by rewrite Nat.ltb_irrefl.
  - rewrite bool_decide_eq_true_2 by done. simpl.
    replace (String.length stem + S (S (String.length ext)) - 0)
      with (S (S (String.length stem + String.length ext))) by lia.
    destruct (Nat.ltb_spec (S (String.length stem))
                (S (S (String.length stem + String.length ext)))); [done|lia].
Qed.

Lemma suffix_no_dot (p : Path) :
  Str.contains "." (PurePath.name p) = false → PurePath.suffix p = "".
Proof. intros H. unfold PurePath.suffix. by rewrite (rfind_None _ _ H). Qed.

End SuffixFacts.

Section InferProperties.

Context `{B : Backend}.

Lemma infer_missing (outfile : Path) :
  PurePath.suffix outfile = "" →
  infer_rendering_format outfile = Raise (ValueError (missing_suffix_msg outfile)).
Proof. intros H. unfold infer_rendering_format. by rewrite H. Qed.

Lemma infer_unknown (outfile : Path) (s : string) :
  PurePath.suffix outfile = "." +:+ s → Str.lower s ∉ FORMATS →
  infer_rendering_format outfile = Raise (ValueError (unknown_format_msg outfile)).
Proof.
  intros Hs Hf. change ("." +:+ s) with (String "." s) in Hs.
  unfold infer_rendering_format, unknown_format_msg. rewrite Hs. simpl.
  destruct (verify_format_unsupported (Str.lower s)) as [m ->];
    [by rewrite lower_idemp|done].
Qed.

(** X5.  [infer_rendering_format] raises nothing but [ValueError]: its
    assertion on the partition of the suffix cannot fail.  A format it
    returns is a format of the registry, is lower-case, is not empty and
    holds no dot. *)
Theorem infer_rendering_format_outcome (outfile : Path) :
  (∀ e, infer_rendering_format outfile = Raise e → ∃ m, e = ValueError m)
  ∧ (∀ X, infer_rendering_format outfile = Ok X →
          X ∈ FORMATS ∧ Str.lower X = X ∧ X ≠ ""
          ∧ Str.contains "." X = false).
Proof.
  split.
  - intros e H. apply infer_raises_ValueError in H. destruct e; try done.
    by eexists.
  - intros X H. apply infer_Ok_iff in H as (s & Hs & -> & Hf).
    destruct (suffix_shape _ _ Hs) as [Hne Hdot].
    split; [done|]. split; [apply lower_idemp|].
    split; [by apply lower_nonempty|]. by rewrite contains_lower_dot.
Qed.

(** X6.  [infer_rendering_format] reads the format off the file name.  A
    name made of a stem, a dot and an extension without dot gives the
    lower-cased extension when this is a supported format, and the
    unknown-format [ValueError] when it is not; when the stem is empty
    (a name such as [.png]) or the extension is empty (a name that ends
    in a dot), and when the name holds no dot at all, it gives the
    missing-suffix [ValueError]. *)
Theorem infer_rendering_format_by_name (outfile : Path) :
  (∀ stem ext,
     PurePath.name outfile = stem +:+ "." +:+ ext →
     Str.contains "." ext = false →
     infer_rendering_format outfile
     = if bool_decide (stem ≠ "" ∧ ext ≠ "") then
         if bool_decide (Str.lower ext ∈ FORMATS) then Ok (Str.lower ext)
         else Raise (ValueError (unknown_format_msg outfile))
       else Raise (ValueError (missing_suffix_msg outfile)))
  ∧ (Str.contains "." (PurePath.name outfile) = false →
     infer_rendering_format outfile
     = Raise (ValueError (missing_suffix_msg outfile))).
Proof.
  split.
  - intros stem ext Hn He. pose proof (suffix_of_name _ _ _ Hn He) as Hs.
    destruct (bool_decide (stem ≠ "" ∧ ext ≠ "")); [|by apply infer_missing].
    destruct (bool_decide (Str.lower ext ∈ FORMATS)) eqn:Hf.
    + apply bool_decide_eq_true_1 in Hf. by apply infer_supported.
    + apply bool_decide_eq_false_1 in Hf. by apply (infer_unknown _ ext).
  - intros H. apply infer_missing. by apply suffix_no_dot.
Qed.

End InferProperties.

(** ** Events of a call *)

Section TraceFacts.

Context `{B : Backend}.

(** Format resolution leaves the world alone and warns at most once. *)
Lemma get_rendering_format_events (outfile : Path) (format : option string) w :
  ∃ evs r,
    get_rendering_format outfile format w = (w, evs, r)
    ∧ (evs = [] ∨ ∃ c m, evs = [Warn c m]).
Proof.
  unfold get_rendering_format.
  destruct (infer_rendering_format outfile) as [X|e].
  - destruct format as [Y|]; [|by eexists _, _; split; [|left]].
    destruct (negb _); eexists _, _; (split; [done|]); [right|left]; eauto.
  - destruct e; try by (eexists _, _; split; [|left]).
    destruct format as [Y|]; eexists _, _; (split; [done|]); [right|left]; eauto.
Qed.

Ltac resolved_paths o :=
  repeat (apply List.Forall_cons;
          [exists o; split; [done|]; first [by left | right; by eauto]|]);
  apply List.Forall_nil.

(** The events of the request: at most one warning, then paths resolved,
    each the outfile or the source path; none in the default-naming
    mode. *)
Lemma render_request_events engine format filepath renderer formatter outfile
    raise_if_result_exists overwrite_filepath w w0 e0 r :
  render_request engine format filepath renderer formatter outfile
                 raise_if_result_exists overwrite_filepath w = (w0, e0, r) →
  ∃ ew er,
    e0 = ew ++ er
    ∧ (ew = [] ∨ ∃ c m, ew = [Warn c m])
    ∧ Forall (λ e, ∃ o, outfile = Some o
                        ∧ (e = Resolve (PurePath.of_string o)
                           ∨ ∃ fp, source_path (promote_pathlike filepath)
                                               (PurePath.of_string o) = Ok fp
                                   ∧ e = Resolve fp)) er
    ∧ (outfile = None → e0 = []).
Proof.
  unfold render_request.
  destruct (_ && _); [by intros [= <- <- <-]; exists [], []; auto|].
  destruct outfile as [o|]; simpl.
  - rewrite render_outfile_eq.
    destruct (get_rendering_format_events (PurePath.of_string o) format w)
      as (ew & rf & -> & Hew).
    destruct rf as [fmt|e]; [|by intros [= <- <- <-]; exists ew, [];
                                  rewrite app_nil_r; auto].
    destruct (command engine fmt renderer formatter);
      [|by intros [= <- <- <-]; exists ew, []; rewrite app_nil_r; auto].
    destruct (source_path _ _) as [fp|e] eqn:Hsrc;
      [|by intros [= <- <- <-]; exists ew, []; rewrite app_nil_r; auto].
    simpl.
    destruct (negb overwrite_filepath && _); simpl.
    + destruct (bool_decide (fs_resolve w _ = _)).
      * intros [= <- <- <-]. eexists ew, _. split; [done|]. split; [done|].
        split; [|done]. resolved_paths o.
      * destruct (bool_decide (PurePath.parent _ ≠ _));
          intros [= <- <- <-]; eexists ew, _; (split; [done|]);
          (split; [done|]); (split; [|done]); resolved_paths o.
    + destruct (bool_decide (PurePath.parent _ ≠ _));
        intros [= <- <- <-]; eexists ew, _; (split; [done|]);
        (split; [done|]); (split; [|done]); resolved_paths o.
  - destruct format as [F|]; [|by intros [= <- <- <-]; exists [], []; auto].
    destruct filepath as [P|]; simpl;
      [|by intros [= <- <- <-]; exists [], []; auto].
    rewrite render_default_eq.
    destruct (command engine F renderer formatter);
      intros [= <- <- <-]; exists [], []; auto.
Qed.

End TraceFacts.

Section RenderProperties.

Context `{B : Backend}.

(** X7.  With an explicit format, [get_rendering_format] never raises
    and leaves the world alone.  What it returns is the explicit format
    up to letter case; it warns at most once, and when it warns it
    returns the explicit format exactly as given; when it does not, it
    returns the inferred format. *)
Theorem get_rendering_format_explicit (outfile : Path) (Y : string) (w : World) :
  ∃ evs r,
    get_rendering_format outfile (Some Y) w = (w, evs, Ok r)
    ∧ Str.lower r = Str.lower Y
    ∧ (evs = [] ∧ infer_rendering_format outfile = Ok r
       ∨ ∃ c m, evs = [Warn c m] ∧ r = Y).
Proof.
  unfold get_rendering_format.
  destruct (infer_rendering_format outfile) as [X|e] eqn:HX.
  - destruct (String.eqb (Str.lower Y) X) eqn:E; simpl.
    + apply String.eqb_eq in E. exists [], X. split; [done|].
      split; [|by left]. subst X. apply lower_idemp.
    + eexists _, Y. split; [done|]. split; [done|]. right. eauto.
  - apply infer_raises_ValueError in HX. destruct e; try done.
    eexists _, Y. split; [done|]. split; [done|]. right. eauto.
Qed.

(** X8.  Without an outfile, [render] needs a format and a filepath.
    When the two flags are not both set: without a format it raises
    [RequiredArgumentError] for the format, whether or not a filepath is
    given; with a format and without a filepath it raises
    [RequiredArgumentError] for the filepath.  In both cases nothing has
    happened before: no event, the world as it was. *)
Theorem render_required_arguments engine filepath renderer formatter quiet
    raise_if_result_exists overwrite_filepath w :
  raise_if_result_exists && overwrite_filepath = false →
  render engine None filepath renderer formatter quiet None
         raise_if_result_exists overwrite_filepath w
  = (w, [], Raise (RequiredArgumentError format_required_msg))
  ∧ ∀ F, render engine (Some F) None renderer formatter quiet None
                raise_if_result_exists overwrite_filepath w
         = (w, [], Raise (RequiredArgumentError filepath_required_msg)).
Proof.
  intros H. split; [|intros F]; rewrite render_eq; unfold render_request;
    by rewrite H.
Qed.

(** X9.  When [render] runs the subprocess, it runs it once and as the
    last thing it does, in the world the call started in, with the
    caller's [quiet] and with [capture_output] set; the call then ends as
    the subprocess does: in the world it leaves, with a result if it
    succeeded and with its exception if it raised. *)
Theorem render_runs_engine_once engine format filepath renderer formatter
    quiet outfile raise_if_result_exists overwrite_filepath w w1 evs r
    cmd cwd q c :
  render engine format filepath renderer formatter quiet outfile
         raise_if_result_exists overwrite_filepath w = (w1, evs, r) →
  RunCheck cmd cwd q c ∈ evs →
  q = quiet ∧ c = true
  ∧ ∃ evs0 r',
      evs = evs0 ++ [RunCheck cmd cwd quiet true]
      ∧ Forall (λ e, is_RunCheck e = false) evs0
      ∧ run_check cmd cwd quiet true w = (w1, r')
      ∧ match r' with
        | Ok _ => ∃ p, r = Ok p
        | Raise e => r = Raise e
        end.
Proof.
  intros H Hin. rewrite render_eq in H.
  destruct (render_request _ _ _ _ _ _ _ _ w) as [[w0 e0] req] eqn:Hreq.
  destruct (render_request_world _ _ _ _ _ _ _ _ _ _ _ _ Hreq) as [-> Hno].
  pose proof Hno as Hno'. rewrite Forall_forall in Hno'.
  assert (Hexists : ∀ s, RunCheck cmd cwd q c ∈
              (if raise_if_result_exists then [Exists s] else []) → False).
  { intros s Hs. destruct raise_if_result_exists; [|by apply elem_of_nil in Hs].
    by apply list_elem_of_singleton in Hs. }
  destruct req as [[[cmd0 fp] rendered]|e];
    [|by injection H as <- <- <-; apply Hno' in Hin].
  simpl in H. destruct (_ && fs_exists _ _).
  - injection H as <- <- <-. apply elem_of_app in Hin as [Hin|Hin];
      [by apply Hno' in Hin|by apply Hexists in Hin].
  - destruct (run_check cmd0 _ _ _ _) as [w1' r'] eqn:Hrun.
    injection H as <- <- <-.
    apply elem_of_app in Hin as [Hin|Hin]; [by apply Hno' in Hin|].
    apply elem_of_app in Hin as [Hin|Hin]; [by apply Hexists in Hin|].
    apply list_elem_of_singleton in Hin. injection Hin as -> -> -> ->.
    split; [done|]. split; [done|].
    eexists (e0 ++ _), r'. rewrite <- app_assoc.
    split; [done|]. split; [|split; [done|by destruct r'; eauto]].
    apply Forall_app. split; [done|].
    destruct raise_if_result_exists; by repeat constructor.
Qed.

(** X10.  A call of [render] that does not run the subprocess raises and
    leaves the world as it was; so a call that returns a result has run
    the subprocess. *)
Theorem render_without_engine engine format filepath renderer formatter
    quiet outfile raise_if_result_exists overwrite_filepath w w1 evs r :
  render engine format filepath renderer formatter quiet outfile
         raise_if_result_exists overwrite_filepath w = (w1, evs, r) →
  (Forall (λ e, is_RunCheck e = false) evs → w1 = w ∧ ∃ e, r = Raise e)
  ∧ (∀ p, r = Ok p → ∃ cmd cwd, RunCheck cmd cwd quiet true ∈ evs).
Proof.
  intros H. rewrite render_eq in H.
  destruct (render_request _ _ _ _ _ _ _ _ w) as [[w0 e0] req] eqn:Hreq.
  destruct (render_request_world _ _ _ _ _ _ _ _ _ _ _ _ Hreq) as [-> _].
  destruct req as [[[cmd0 fp] rendered]|e];
    [|by injection H as <- <- <-; split; eauto].
  simpl in H. destruct (_ && fs_exists _ _);
    [by injection H as <- <- <-; split; eauto|].
  destruct (run_check cmd0 _ _ _ _) as [w1' r']. injection H as <- <- <-.
  split.
  - intros Hno. rewrite !Forall_app in Hno. destruct Hno as (_ & _ & Hno).
    by inversion Hno.
  - intros p _. exists cmd0, (cwd_of fp). rewrite !elem_of_app.
    right. right. by apply list_elem_of_singleton.
Qed.

(** X11.  What a call of [render] does before the subprocess: it looks
    up a file only when [raise_if_result_exists] is set; it resolves a
    path only in the explicit-output mode, and only the outfile or the
    source path; it warns only in the explicit-output mode, at most once
    and before anything else. *)
Theorem render_trace engine format filepath renderer formatter
    quiet outfile raise_if_result_exists overwrite_filepath w w1 evs r :
  render engine format filepath renderer formatter quiet outfile
         raise_if_result_exists overwrite_filepath w = (w1, evs, r) →
  (∀ s, Exists s ∈ evs → raise_if_result_exists = true)
  ∧ (∀ p, Resolve p ∈ evs →
          ∃ o, outfile = Some o
               ∧ (p = PurePath.of_string o
                  ∨ source_path (promote_pathlike filepath)
                                (PurePath.of_string o) = Ok p))
  ∧ (∀ c m, Warn c m ∈ evs →
            is_Some outfile
            ∧ ∃ rest, evs = Warn c m :: rest ∧ ∀ c' m', Warn c' m' ∉ rest).
Proof.
  intros H. rewrite render_eq in H.
  destruct (render_request _ _ _ _ _ _ _ _ w) as [[w0 e0] req] eqn:Hreq.
  destruct (render_request_events _ _ _ _ _ _ _ _ _ _ _ _ Hreq)
    as (ew & er & -> & Hew & Her & Hnone).
  rewrite Forall_forall in Her.
  assert (Htail : ∃ et, evs = (ew ++ er) ++ et
            ∧ Forall (λ e, (∃ s, e = Exists s ∧ raise_if_result_exists = true)
                           ∨ is_RunCheck e = true) et).
  { assert (He1 : ∀ s,
              Forall (λ e, (∃ s, e = Exists s ∧ raise_if_result_exists = true)
                           ∨ is_RunCheck e = true)
                     (if raise_if_result_exists then [Exists s] else [])).
    { intros s. destruct raise_if_result_exists; [|constructor].
      constructor; [left; eauto|constructor]. }
    destruct req as [[[cmd0 fp] rendered]|e];
      [|by injection H as <- <- <-; exists []; rewrite app_nil_r].
    simpl in H. destruct (_ && fs_exists _ _).
    - injection H as <- <- <-. eexists. split; [done|]. apply He1.
    - destruct (run_check cmd0 _ _ _ _) as [w1' r']. injection H as <- <- <-.
      eexists. split; [done|]. apply Forall_app. split; [apply He1|].
      constructor; [by right|constructor]. }
  destruct Htail as (et & -> & Het). rewrite Forall_forall in Het.
  clear H Hreq. split; [|split].
  - intros s Hs. rewrite !elem_of_app in Hs. destruct Hs as [[Hs|Hs]|Hs].
    + destruct Hew as [->|(c & m & ->)]; [by apply elem_of_nil in Hs|].
      by apply list_elem_of_singleton in Hs.
    + by apply Her in Hs as (o & _ & [?|(? & _ & ?)]).
    + by apply Het in Hs as [(? & _ & ?)|?].
  - intros p Hp. rewrite !elem_of_app in Hp. destruct Hp as [[Hp|Hp]|Hp].
    + destruct Hew as [->|(c & m & ->)]; [by apply elem_of_nil in Hp|].
      by apply list_elem_of_singleton in Hp.
    + apply Her in Hp as (o & Ho & [[= ->]|(fp & Hfp & [= ->])]); eauto.
    + by apply Het in Hp as [(? & ? & _)|?].
  - intros c m Hc.
    assert (Hnot : ∀ c' m', Warn c' m' ∉ er ++ et).
    { intros c' m' Hw. apply elem_of_app in Hw as [Hw|Hw].
      - by apply Her in Hw as (o & _ & [?|(? & _ & ?)]).
      - by apply Het in Hw as [(? & ? & _)|?]. }
    rewrite <- app_assoc in Hc |- *.
    destruct Hew as [->|(c0 & m0 & ->)]; [by apply Hnot in Hc|].
    apply elem_of_cons in Hc as [[= -> ->]|Hc]; [|by apply Hnot in Hc].
    split; [|by eexists].
    destruct outfile; [done|]. by specialize (Hnone eq_refl).
Qed.

(** X12.  An exception of the command builder comes out of [render]
    unchanged and before any access to the file system: in the
    default-naming mode nothing has happened at that point, not even the
    existence check of [raise_if_result_exists]; in the explicit-output
    mode only the format has been resolved. *)
Theorem render_command_error engine format filepath renderer formatter
    quiet raise_if_result_exists overwrite_filepath w :
  raise_if_result_exists && overwrite_filepath = false →
  (∀ F P e,
     command engine F renderer formatter = Raise e →
     render engine (Some F) (Some P) renderer formatter quiet None
            raise_if_result_exists overwrite_filepath w = (w, [], Raise e))
  ∧ (∀ o e1 fmt e,
       get_rendering_format (PurePath.of_string o) format w = (w, e1, Ok fmt) →
       command engine fmt renderer formatter = Raise e →
       render engine format filepath renderer formatter quiet (Some o)
              raise_if_result_exists overwrite_filepath w = (w, e1, Raise e)).
Proof.
  intros Hflags. split.
  - intros F P e Hc. rewrite render_eq. unfold render_request.
    rewrite Hflags. simpl. by rewrite render_default_eq, Hc.
  - intros o e1 fmt e Hf Hc. rewrite render_eq. unfold render_request.
    rewrite Hflags. simpl. by rewrite render_outfile_eq, Hf, Hc.
Qed.

End RenderProperties.

(** ** Well-formed paths *)

Section WellFormedFacts.

Lemma well_formed_of_string (s : string) : well_formed (PurePath.of_string s).
Proof.
  split; [|apply of_string_tail].
  pose proof (splitroot_root s) as H. unfold PurePath.of_string.
  by destruct (PurePath.splitroot s).
Qed.

Lemma Forall_removelast {A} (P : A → Prop) (l : list A) :
  Forall P l → Forall P (removelast l).
Proof.
  induction 1 as [|x l Hx Hl IH]; [constructor|].
  destruct l; [constructor|]. by constructor.
Qed.

Lemma well_formed_parent (p : Path) : well_formed p → well_formed (PurePath.parent p).
Proof.
  intros [Hr Ht]. unfold PurePath.parent.
  destruct (tail p) as [|x l] eqn:E; [by split; rewrite ?E|].
  split; [done|]. apply (Forall_removelast _ (x :: l)).
  first [exact Ht | by rewrite <- E].
Qed.

(** A well-formed path read back from its string is the same path. *)
Lemma fspath_roundtrip (p : Path) :
  well_formed p → PurePath.of_string (PurePath.fspath p) = p.
Proof.
  intros [Hr Ht]. destruct p as [r t]. simpl in *. unfold PurePath.fspath. simpl.
  destruct t as [|x l].
  - by destruct Hr as [->|[->| ->]].
  - destruct (join_components x l Ht) as (a & j & Hj & Ha). rewrite Hj.
    destruct (splitroot_rel a j Ha) as (S0 & S1 & S2).
    assert (Hsplit : filter (λ x, PurePath.is_component x = true)
                            (Str.split "/" (String a j)) = x :: l).
    { rewrite <- Hj. rewrite split_join; [by apply filter_components|done|].
      eapply Forall_impl; [exact Ht|]. by intros ? [_ ?]. }
    destruct Hr as [->|[->| ->]].
    + change (PurePath.of_string (String a j) = mkPath "" (x :: l)).
      unfold PurePath.of_string. by rewrite S0, Hsplit.
    + change (PurePath.of_string ("/" +:+ String a j) = mkPath "/" (x :: l)).
      unfold PurePath.of_string. by rewrite S1, Hsplit.
    + change (PurePath.of_string ("//" +:+ String a j) = mkPath "//" (x :: l)).
      unfold PurePath.of_string. by rewrite S2, Hsplit.
Qed.

(** A single component is parsed as a relative path of one component. *)
Lemma of_string_component (x : string) :
  PurePath.is_component x = true → Str.contains "/" x = false →
  PurePath.of_string x = mkPath "" [x].
Proof.
  intros Hc Hs. destruct (component_startswith x Hc Hs) as (a & x' & -> & Ha).
  destruct (splitroot_rel a x' Ha) as (S0 & _ & _).
  unfold PurePath.of_string. rewrite S0, (split_piece _ _ Hs).
  by rewrite filter_cons_True, filter_nil.
Qed.

Lemma last_component (p : Path) :
  well_formed p → tail p ≠ [] →
  PurePath.is_component (PurePath.name p) = true
  ∧ Str.contains "/" (PurePath.name p) = false.
Proof.
  intros [_ Ht] Hne. unfold PurePath.name. rewrite Forall_forall in Ht.
  apply Ht. apply list_elem_of_In.
  destruct (exists_last Hne) as (l & x & ->). rewrite last_last.
  apply in_or_app. right. by left.
Qed.

(** The parent of a path joined with its name is the path. *)
Lemma parent_truediv_name (p : Path) :
  well_formed p → PurePath.parent p // PurePath.name p = p.
Proof.
  intros Hp. unfold PurePath.parent, PurePath.truediv.
  destruct (tail p) as [|x l] eqn:E.
  - unfold PurePath.name. rewrite E. simpl.
    destruct p as [r t]. simpl in E. by subst t.
  - assert (Hne : tail p ≠ []) by by rewrite E.
    destruct (last_component p Hp Hne) as [Hc Hs].
    rewrite (of_string_component _ Hc Hs).
    change (mkPath (root p) (removelast (x :: l) ++ [PurePath.name p]) = p).
    rewrite <- E. unfold PurePath.name. rewrite removelast_last by done.
    by destruct p.
Qed.

(** The working directory of the subprocess is the parent of the source
    path. *)
Lemma working_directory_cwd_of (p : Path) :
  well_formed p → working_directory (cwd_of p) = PurePath.parent p.
Proof.
  intros Hp. apply well_formed_parent in Hp. unfold cwd_of, PurePath.parts.
  destruct (PurePath.parent p) as [r t]. pose proof Hp as [Hr Ht]. simpl in *.
  destruct Hr as [->|[->| ->]]; simpl.
  - destruct t; [done|]. by apply fspath_roundtrip.
  - by apply fspath_roundtrip.
  - by apply fspath_roundtrip.
Qed.

Lemma contains_append (c : ascii) (a b : string) :
  Str.contains c (a +:+ b) = Str.contains c a || Str.contains c b.
Proof.
  induction a as [|x a IH]; [done|]. rewrite append_cons. simpl.
  by rewrite IH, orb_assoc.
Qed.

Lemma contains_take (c : ascii) (n : nat) (s : string) :
  Str.contains c s = false → Str.contains c (Str.take n s) = false.
Proof.
  revert s. induction n as [|n IH]; intros [|a s]; try done. simpl.
  destruct (Ascii.eqb a c); [done|]. simpl. apply IH.
Qed.

Lemma is_component_append (x y : string) :
  2 ≤ String.length y → PurePath.is_component (x +:+ y) = true.
Proof.
  intros Hy. unfold PurePath.is_component.
  destruct y as [|a [|b y]]; simpl in Hy; try lia.
  destruct x as [|c [|d x]]; rewrite ?append_cons; simpl.
  - by destruct (Ascii.eqb a ".").
  - by destruct (Ascii.eqb c ".").
  - by destruct (Ascii.eqb c ".").
Qed.

Lemma append_inv_head (a b c : string) : a +:+ b = a +:+ c → b = c.
Proof.
  induction a as [|x a IH]; [done|]. rewrite !append_cons. intros [= H].
  by apply IH.
Qed.

(** The source path derived from an outfile: it exists exactly when the
    outfile has a name, and is then the sibling of the outfile whose name
    is the stem of the outfile followed by the default source suffix. *)
Lemma source_path_derived (out : Path) :
  (PurePath.name out = "" →
   source_path None out
   = Raise (ValueError (PurePath.repr out +:+ " has an empty name")))
  ∧ (PurePath.name out ≠ "" →
     ∃ stem,
       PurePath.name out = stem +:+ PurePath.suffix out
       ∧ source_path None out
         = Ok (mkPath (root out)
                      (removelast (tail out)
                       ++ [stem +:+ "." +:+ DEFAULT_SOURCE_EXTENSION]))).
Proof.
  unfold source_path, PurePath.with_suffix. simpl. split.
  - by intros ->.
  - intros Hn. rewrite (eqb_empty_false _ Hn).
    destruct (String.eqb (PurePath.suffix out) "") eqn:Hs.
    + apply String.eqb_eq in Hs. exists (PurePath.name out).
      split; [|done]. rewrite Hs. clear.
      induction (PurePath.name out) as [|a n IH]; [done|].
      by rewrite append_cons, <- IH.
    + apply String.eqb_neq in Hs. destruct (suffix_name out Hs) as [_ Ht].
      eexists. split; [by rewrite Ht|done].
Qed.

Lemma removelast_app_one {A} (l : list A) (x : A) : removelast (l ++ [x]) = l.
Proof. apply List.removelast_last. Qed.

Lemma name_app_one (r : string) (l : list string) (x : string) :
  PurePath.name (mkPath r (l ++ [x])) = x.
Proof. unfold PurePath.name. simpl. apply last_last. Qed.

Lemma parent_app_one (r : string) (l : list string) (x : string) :
  PurePath.parent (mkPath r (l ++ [x])) = mkPath r l.
Proof.
  unfold PurePath.parent. simpl. rewrite removelast_app_one.
  by destruct l.
Qed.

Lemma parent_eq (p : Path) :
  tail p ≠ [] → PurePath.parent p = mkPath (root p) (removelast (tail p)).
Proof. unfold PurePath.parent. by destruct (tail p). Qed.

End WellFormedFacts.

(** ** The request and the subprocess *)

Section RequestFacts.

Context `{B : Backend}.

(** What a request that passes has computed, in each mode. *)
Lemma render_request_Ok engine format filepath renderer formatter outfile
    raise_if_result_exists overwrite_filepath w w0 e0 cmd fp rendered :
  render_request engine format filepath renderer formatter outfile
                 raise_if_result_exists overwrite_filepath w
  = (w0, e0, Ok (cmd, fp, rendered)) →
  raise_if_result_exists && overwrite_filepath = false
  ∧ match outfile with
    | Some o =>
        let out := PurePath.of_string o in
        ∃ e1 fmt prefix,
          get_rendering_format out format w = (w, e1, Ok fmt)
          ∧ command engine fmt renderer formatter = Ok prefix
          ∧ source_path (promote_pathlike filepath) out = Ok fp
          ∧ rendered = out
          ∧ cmd = prefix ++ [StrArg "-o";
                             if bool_decide (PurePath.parent out ≠ PurePath.parent fp)
                             then PathArg (fs_resolve w out)
                             else StrArg (PurePath.name out);
                             StrArg (PurePath.name fp)]
    | None =>
        ∃ F P prefix,
          format = Some F ∧ filepath = Some P ∧ fp = PurePath.of_string P
          ∧ command engine F renderer formatter = Ok prefix
          ∧ cmd = prefix ++ [StrArg "-O"; StrArg (PurePath.name fp)]
          ∧ rendered
            = PurePath.parent fp
              // (PurePath.name fp +:+ "."
                  +:+ Str.join "." (omap id [formatter; renderer; Some F]))
    end.
Proof.
  unfold render_request.
  destruct (raise_if_result_exists && overwrite_filepath); [done|].
  intros H. split; [done|]. destruct outfile as [o|]; simpl in *.
  - rewrite render_outfile_eq in H.
    destruct (preflight_get_rendering_format (PurePath.of_string o) format w)
      as (e1 & rf & E & _ & _).
    rewrite E in H. destruct rf as [fmt|e]; [|done].
    destruct (command engine fmt renderer formatter) as [prefix|e] eqn:Hc; [|done].
    destruct (source_path _ _) as [fp'|e] eqn:Hs; [|done].
    simpl in H. destruct (_ && bool_decide _); [done|].
    injection H as _ _ <- <- <-. by exists e1, fmt, prefix.
  - destruct format as [F|]; [|done]. destruct filepath as [P|]; [|done].
    simpl in H. rewrite render_default_eq in H.
    destruct (command engine F renderer formatter) as [prefix|e] eqn:Hc; [|done].
    injection H as _ _ <- <- <-. by exists F, P, prefix.
Qed.

(** The subprocess is run with the command of the request, in the
    directory of its source path. *)
Lemma render_run_inv engine format filepath renderer formatter quiet outfile
    raise_if_result_exists overwrite_filepath w w1 evs r cmd cwd q c :
  render engine format filepath renderer formatter quiet outfile
         raise_if_result_exists overwrite_filepath w = (w1, evs, r) →
  RunCheck cmd cwd q c ∈ evs →
  ∃ e0 fp rendered,
    render_request engine format filepath renderer formatter outfile
                   raise_if_result_exists overwrite_filepath w
    = (w, e0, Ok (cmd, fp, rendered))
    ∧ cwd = cwd_of fp.
Proof.
  intros H Hin. rewrite render_eq in H.
  destruct (render_request _ _ _ _ _ _ _ _ w) as [[w0 e0] req] eqn:Hreq.
  destruct (render_request_world _ _ _ _ _ _ _ _ _ _ _ _ Hreq) as [-> Hno].
  rewrite Forall_forall in Hno.
  assert (Hexists : ∀ s, RunCheck cmd cwd q c ∈
              (if raise_if_result_exists then [Exists s] else []) → False).
  { intros s Hs. destruct raise_if_result_exists; [|by apply elem_of_nil in Hs].
    by apply list_elem_of_singleton in Hs. }
  destruct req as [[[cmd0 fp] rendered]|e];
    [|by injection H as <- <- <-; apply Hno in Hin].
  simpl in H. destruct (_ && fs_exists _ _).
  - injection H as <- <- <-. apply elem_of_app in Hin as [Hin|Hin];
      [by apply Hno in Hin|by apply Hexists in Hin].
  - destruct (run_check cmd0 _ _ _ _) as [w1' r']. injection H as <- <- <-.
    apply elem_of_app in Hin as [Hin|Hin]; [by apply Hno in Hin|].
    apply elem_of_app in Hin as [Hin|Hin]; [by apply Hexists in Hin|].
    apply list_elem_of_singleton in Hin. injection Hin as -> -> _ _.
    by exists e0, fp, rendered.
Qed.

(** A returned result is the string of the result path of the request. *)
Lemma render_Ok_inv engine format filepath renderer formatter quiet outfile
    raise_if_result_exists overwrite_filepath w w1 evs r :
  render engine format filepath renderer formatter quiet outfile
         raise_if_result_exists overwrite_filepath w = (w1, evs, Ok r) →
  ∃ e0 cmd fp rendered,
    render_request engine format filepath renderer formatter outfile
                   raise_if_result_exists overwrite_filepath w
    = (w, e0, Ok (cmd, fp, rendered))
    ∧ r = PurePath.fspath rendered.
Proof.
  intros H. rewrite render_eq in H.
  destruct (render_request _ _ _ _ _ _ _ _ w) as [[w0 e0] req] eqn:Hreq.
  destruct (render_request_world _ _ _ _ _ _ _ _ _ _ _ _ Hreq) as [-> _].
  destruct req as [[[cmd fp] rendered]|e]; [|done].
  simpl in H. destruct (_ && fs_exists _ _); [done|].
  destruct (run_check cmd _ _ _ _) as [w1' [[]|e]]; [|done].
  injection H as _ _ <-. by exists e0, cmd, fp, rendered.
Qed.

Lemma well_formed_derived (out fp : Path) :
  well_formed out → source_path None out = Ok fp → well_formed fp.
Proof.
  intros Hw Hs. destruct (String.eqb (PurePath.name out) "") eqn:Hn.
  - apply String.eqb_eq in Hn.
    by rewrite (proj1 (source_path_derived out) Hn) in Hs.
  - apply String.eqb_neq in Hn.
    destruct (proj2 (source_path_derived out) Hn) as (stem & Hstem & Hd).
    rewrite Hd in Hs. injection Hs as <-. destruct Hw as [Hr Ht].
    split; [done|]. simpl. apply Forall_app. split; [by apply Forall_removelast|].
    constructor; [|constructor].
    split; [apply is_component_append; simpl; lia|].
    destruct (last_component out (conj Hr Ht) (name_nonempty_tail _ Hn)) as [_ Hc].
    rewrite Hstem, contains_append in Hc. apply orb_false_iff in Hc as [Hc _].
    by rewrite contains_append, Hc.
Qed.

Lemma well_formed_source_path (filepath : option string) (out fp : Path) :
  well_formed out → source_path (promote_pathlike filepath) out = Ok fp →
  well_formed fp.
Proof.
  destruct filepath as [f|]; simpl.
  - intros _ [= <-]. apply well_formed_of_string.
  - apply well_formed_derived.
Qed.

Lemma contains_join (c : ascii) (sep : string) (l : list string) :
  Str.contains c sep = false →
  Forall (λ a, Str.contains c a = false) l →
  Str.contains c (Str.join sep l) = false.
Proof.
  intros Hsep. induction 1 as [|x l Hx Hl IH]; [done|].
  destruct l as [|y l]; [done|].
  change (Str.join sep (x :: y :: l)) with (x +:+ sep +:+ Str.join sep (y :: l)).
  by rewrite !contains_append, Hx, Hsep, IH.
Qed.

End RequestFacts.

(** ** Where the files are *)

Section PathProperties.

Context `{B : Backend}.

(** X13.  In the default-naming mode the result lies beside the source:
    when the filepath names a file and neither the format nor the
    renderer nor the formatter holds a separator, the path [render]
    returns has the parent of the filepath, and its name is the name of
    the filepath followed by a dot and the dot-joined formatter, renderer
    and format. *)
Theorem render_default_sibling engine F P renderer formatter quiet
    raise_if_result_exists overwrite_filepath w w1 evs r :
  PurePath.name (PurePath.of_string P) ≠ "" →
  Forall (λ a, Str.contains "/" a = false) (omap id [formatter; renderer; Some F]) →
  render engine (Some F) (Some P) renderer formatter quiet None
         raise_if_result_exists overwrite_filepath w = (w1, evs, Ok r) →
  PurePath.parent (PurePath.of_string r) = PurePath.parent (PurePath.of_string P)
  ∧ PurePath.name (PurePath.of_string r)
    = PurePath.name (PurePath.of_string P) +:+ "."
      +:+ Str.join "." (omap id [formatter; renderer; Some F]).
Proof.
  intros Hn Hsep H. apply render_Ok_inv in H as (e0 & cmd & fp & rendered & Hreq & ->).
  apply render_request_Ok in Hreq as (_ & F' & P' & prefix & [= <-] & [= <-] & -> & _ & _ & ->).
  set (fp := PurePath.of_string P) in *.
  set (key := PurePath.name fp +:+ "." +:+ Str.join "." (omap id [formatter; renderer; Some F])).
  pose proof (well_formed_of_string P) as Hfp. fold fp in Hfp.
  pose proof (name_nonempty_tail _ Hn) as Ht.
  destruct (last_component fp Hfp Ht) as [Hc Hs].
  assert (Hk1 : PurePath.is_component key = true).
  { unfold PurePath.is_component, key.
    destruct (PurePath.name fp) as [|a n]; [done|]. rewrite append_cons. simpl.
    destruct (Ascii.eqb a "."); [|done]. by destruct n. }
  assert (Hk2 : Str.contains "/" key = false).
  { unfold key. rewrite !contains_append, Hs. simpl. by apply contains_join. }
  assert (Hr : PurePath.parent fp // key
               = mkPath (root fp) (removelast (tail fp) ++ [key])).
  { unfold PurePath.truediv. rewrite (of_string_component _ Hk1 Hk2).
    by rewrite (parent_eq _ Ht). }
  rewrite Hr, fspath_roundtrip.
  - rewrite parent_app_one, name_app_one. by rewrite (parent_eq _ Ht).
  - destruct Hfp as [Hroot Htail]. split; [done|]. simpl.
    apply Forall_app. split; [by apply Forall_removelast|].
    by repeat constructor.
Qed.

(** X14.  With an outfile that has a name and no filepath, the source
    path is derived beside the outfile: it has the parent of the outfile,
    and its name is the name of the outfile with the suffix replaced by
    the default source suffix.  So [render] hands the subprocess the bare
    name of the outfile after [-o], then the name of the source, and runs
    it in the directory of the outfile. *)
Theorem render_outfile_only engine format renderer formatter quiet o
    raise_if_result_exists overwrite_filepath w :
  let out := PurePath.of_string o in
  PurePath.name out ≠ "" →
  ∃ stem fp,
    PurePath.name out = stem +:+ PurePath.suffix out
    ∧ source_path None out = Ok fp
    ∧ PurePath.name fp = stem +:+ "." +:+ DEFAULT_SOURCE_EXTENSION
    ∧ PurePath.parent fp = PurePath.parent out
    ∧ ∀ w1 evs r cmd cwd q c,
        render engine format None renderer formatter quiet (Some o)
               raise_if_result_exists overwrite_filepath w = (w1, evs, r) →
        RunCheck cmd cwd q c ∈ evs →
        cwd = cwd_of out
        ∧ ∃ prefix,
            cmd = prefix ++ [StrArg "-o"; StrArg (PurePath.name out);
                             StrArg (PurePath.name fp)].
Proof.
  intros out Hn.
  destruct (proj2 (source_path_derived out) Hn) as (stem & Hstem & Hd).
  pose proof (name_nonempty_tail _ Hn) as Ht.
  eexists stem, _. split; [done|]. split; [exact Hd|].
  rewrite name_app_one, parent_app_one, (parent_eq _ Ht).
  split; [done|]. split; [done|].
  intros w1 evs r cmd cwd q c H Hin.
  apply (render_run_inv _ _ _ _ _ _ _ _ _ _ _ _ _ _ _ _ _ H) in Hin
    as (e0 & fp & rendered & Hreq & ->).
  apply render_request_Ok in Hreq
    as (_ & e1 & fmt & prefix & _ & _ & Hsrc & _ & ->).
  change (source_path None out = Ok fp) in Hsrc.
  rewrite Hd in Hsrc. injection Hsrc as <-.
  fold out. rewrite name_app_one, parent_app_one, (parent_eq _ Ht).
  rewrite bool_decide_eq_false_2 by (by intros ?).
  split; [|by exists prefix].
  unfold cwd_of. by rewrite parent_app_one, (parent_eq _ Ht).
Qed.

(** X15.  An outfile alone is enough.  When its suffix is a supported
    format other than the default source extension, and nothing else is
    given, [render] neither warns nor resolves a path: once the command
    is built (for the lower-cased suffix) and no result is in the way,
    it runs the subprocess on the source beside the outfile and returns
    the outfile. *)
Theorem render_outfile_only_succeeds engine renderer formatter quiet o s
    raise_if_result_exists overwrite_filepath w prefix w1 :
  let out := PurePath.of_string o in
  let stem := Str.take (String.length (PurePath.name out)
                        - String.length (PurePath.suffix out))
                       (PurePath.name out) in
  let cmd := prefix ++ [StrArg "-o"; StrArg (PurePath.name out);
                        StrArg (stem +:+ "." +:+ DEFAULT_SOURCE_EXTENSION)] in
  PurePath.suffix out = "." +:+ s →
  Str.lower s ∈ FORMATS →
  s ≠ DEFAULT_SOURCE_EXTENSION →
  raise_if_result_exists && overwrite_filepath = false →
  command engine (Str.lower s) renderer formatter = Ok prefix →
  (raise_if_result_exists = true → fs_exists w (PurePath.fspath out) = false) →
  run_check cmd (cwd_of out) quiet true w = (w1, Ok tt) →
  render engine None None renderer formatter quiet (Some o)
         raise_if_result_exists overwrite_filepath w
  = (w1,
     (if raise_if_result_exists then [Exists (PurePath.fspath out)] else [])
     ++ [RunCheck cmd (cwd_of out) quiet true],
     Ok (PurePath.fspath out)).
Proof.
  intros out stem cmd Hs Hf Hgv Hflags Hcmd Hex Hrun.
  assert (Hne : PurePath.suffix out ≠ "") by by rewrite Hs.
  destruct (suffix_name out Hne) as [Hn Hstem]. fold stem in Hstem.
  pose proof (name_nonempty_tail _ Hn) as Ht.
  assert (Hsrc : source_path None out
                 = Ok (mkPath (root out)
                              (removelast (tail out)
                               ++ [stem +:+ "." +:+ DEFAULT_SOURCE_EXTENSION]))).
  { unfold source_path, PurePath.with_suffix. simpl.
    by rewrite (eqb_empty_false _ Hn), (eqb_empty_false _ Hne). }
  assert (Hnames : String.eqb (PurePath.name out)
                     (stem +:+ "." +:+ DEFAULT_SOURCE_EXTENSION) = false).
  { apply String.eqb_neq. rewrite <- Hstem, Hs. intros H.
    apply append_inv_head in H. by injection H. }
  assert (Hgrf : get_rendering_format out None w = (w, [], Ok (Str.lower s))).
  { unfold get_rendering_format. by rewrite (infer_supported _ _ Hs Hf). }
  rewrite render_eq. unfold render_request. rewrite Hflags.
  change (promote_pathlike (Some o)) with (Some out).
  change (promote_pathlike None) with (@None Path). cbv beta iota zeta.
  rewrite render_outfile_eq, Hgrf. cbv beta iota. rewrite Hcmd, Hsrc.
  cbv beta iota zeta.
  rewrite name_app_one, parent_app_one, Hnames, andb_false_r.
  cbn [andb]. cbv beta iota zeta. rewrite (parent_eq _ Ht).
  rewrite (bool_decide_eq_false_2 (_ ≠ _)) by (intros H; by apply H).
  cbv beta iota zeta. rewrite !app_nil_l.
  assert (Hcwd : cwd_of (mkPath (root out)
                   (removelast (tail out)
                    ++ [stem +:+ "." +:+ DEFAULT_SOURCE_EXTENSION])) = cwd_of out).
  { unfold cwd_of. by rewrite parent_app_one, (parent_eq _ Ht). }
  rewrite Hcwd. fold cmd.
  destruct raise_if_result_exists.
  - rewrite (Hex eq_refl). cbv beta iota. by rewrite Hrun.
  - cbv beta iota. by rewrite Hrun.
Qed.

(** X16.  An outfile without a name (the current directory, a root)
    cannot stand for its source: without a filepath [render] never
    returns a result for it, and with an explicit format, once the
    command is built, it raises the [ValueError] of the path that has an
    empty name, after the warning for the missing suffix. *)
Theorem render_outfile_without_name engine format renderer formatter quiet o
    raise_if_result_exists overwrite_filepath w :
  let out := PurePath.of_string o in
  PurePath.name out = "" →
  (∀ w1 evs r,
     render engine format None renderer formatter quiet (Some o)
            raise_if_result_exists overwrite_filepath w ≠ (w1, evs, Ok r))
  ∧ (∀ Y prefix,
       raise_if_result_exists && overwrite_filepath = false →
       command engine Y renderer formatter = Ok prefix →
       render engine (Some Y) None renderer formatter quiet (Some o)
              raise_if_result_exists overwrite_filepath w
       = (w, [Warn UnknownSuffixWarning (unknown_suffix_msg out Y)],
          Raise (ValueError (PurePath.repr out +:+ " has an empty name")))).
Proof.
  intros out Hn. pose proof (proj1 (source_path_derived out) Hn) as Hsrc. split.
  - intros w1 evs r H. apply render_Ok_inv in H as (e0 & cmd & fp & rendered & Hreq & _).
    apply render_request_Ok in Hreq as (_ & e1 & fmt & prefix & _ & _ & Hs & _).
    change (source_path None out = Ok fp) in Hs. by rewrite Hsrc in Hs.
  - intros Y prefix Hflags Hcmd.
    assert (Hsuf : PurePath.suffix out = "")
      by (unfold PurePath.suffix; by rewrite Hn).
    destruct (infer_missing_suffix _ Hsuf) as [m Hm].
    assert (Hgrf : get_rendering_format out (Some Y) w
                   = (w, [Warn UnknownSuffixWarning (unknown_suffix_msg out Y)],
                      Ok Y)).
    { unfold get_rendering_format. by rewrite Hm. }
    rewrite render_eq. unfold render_request. rewrite Hflags.
    change (promote_pathlike (Some o)) with (Some out).
    change (promote_pathlike None) with (@None Path). cbv beta iota zeta.
    rewrite render_outfile_eq, Hgrf. cbv beta iota. by rewrite Hcmd, Hsrc.
Qed.

(** X17.  The subprocess finds the source where [render] says: in both
    modes the last argument of the command is the bare name of the
    source path, and the working directory of the subprocess joined with
    that name is the source path (the filepath when one is given, the
    path derived from the outfile otherwise). *)
Theorem render_working_directory engine format filepath renderer formatter
    quiet outfile raise_if_result_exists overwrite_filepath w w1 evs r
    cmd cwd q c :
  render engine format filepath renderer formatter quiet outfile
         raise_if_result_exists overwrite_filepath w = (w1, evs, r) →
  RunCheck cmd cwd q c ∈ evs →
  ∃ front fp,
    cmd = front ++ [StrArg (PurePath.name fp)]
    ∧ (∀ f, filepath = Some f → fp = PurePath.of_string f)
    ∧ (filepath = None →
       ∃ o, outfile = Some o ∧ source_path None (PurePath.of_string o) = Ok fp)
    ∧ working_directory cwd // PurePath.name fp = fp.
Proof.
  intros H Hin.
  apply (render_run_inv _ _ _ _ _ _ _ _ _ _ _ _ _ _ _ _ _ H) in Hin
    as (e0 & fp & rendered & Hreq & ->).
  apply render_request_Ok in Hreq as (_ & Hreq).
  assert (Hgoal : well_formed fp →
            working_directory (cwd_of fp) // PurePath.name fp = fp).
  { intros Hw. rewrite (working_directory_cwd_of _ Hw).
    by apply parent_truediv_name. }
  destruct outfile as [o|].
  - destruct Hreq as (e1 & fmt & prefix & _ & _ & Hsrc & _ & ->).
    eexists (prefix ++ [StrArg "-o"; _]), fp.
    split; [by rewrite <- app_assoc|].
    split; [by intros f ->; injection Hsrc|].
    split; [intros ->; by exists o|].
    apply Hgoal.
    by apply (well_formed_source_path filepath (PurePath.of_string o));
      [apply well_formed_of_string|].
  - destruct Hreq as (F & P & prefix & -> & -> & -> & _ & -> & _).
    eexists (prefix ++ [StrArg "-O"]), _.
    split; [by rewrite <- app_assoc|].
    split; [by intros f [= <-]|]. split; [done|].
    apply Hgoal, well_formed_of_string.
Qed.

(** X18.  The path [render] returns depends on the arguments only: two
    calls with the same arguments that both return, in whatever worlds,
    return the same path. *)
Theorem render_result_independent_of_world engine format filepath renderer
    formatter quiet outfile raise_if_result_exists overwrite_filepath
    w w1 evs r w' w1' evs' r' :
  render engine format filepath renderer formatter quiet outfile
         raise_if_result_exists overwrite_filepath w = (w1, evs, Ok r) →
  render engine format filepath renderer formatter quiet outfile
         raise_if_result_exists overwrite_filepath w' = (w1', evs', Ok r') →
  r = r'.
Proof.
  intros H H'.
  apply render_Ok_inv in H as (e0 & cmd & fp & rendered & Hreq & ->).
  apply render_Ok_inv in H' as (e0' & cmd' & fp' & rendered' & Hreq' & ->).
  apply render_request_Ok in Hreq as (_ & Hreq).
  apply render_request_Ok in Hreq' as (_ & Hreq').
  destruct outfile as [o|].
  - destruct Hreq as (? & ? & ? & _ & _ & _ & -> & _).
    by destruct Hreq' as (? & ? & ? & _ & _ & _ & -> & _).
  - destruct Hreq as (F & P & ? & -> & -> & -> & _ & _ & ->).
    by destruct Hreq' as (? & ? & ? & [= <-] & [= <-] & -> & _ & _ & ->).
Qed.

End PathProperties.

(** ** More on the explicit-output mode *)

Section OutfileProperties.

Context `{B : Backend}.

(** X19.  The outfile and the source are compared only when they have
    the same name.  When the names differ, [render] does not resolve the
    source path and does not raise the same-file error, however the two
    paths resolve: once the format is resolved, the command is built and
    no result is in the way, it runs the subprocess, and the call ends as
    the subprocess does. *)
Theorem render_names_differ engine format filepath renderer formatter quiet o
    raise_if_result_exists overwrite_filepath w e1 fmt prefix fp :
  let out := PurePath.of_string o in
  raise_if_result_exists && overwrite_filepath = false →
  get_rendering_format out format w = (w, e1, Ok fmt) →
  command engine fmt renderer formatter = Ok prefix →
  source_path (promote_pathlike filepath) out = Ok fp →
  PurePath.name out ≠ PurePath.name fp →
  (raise_if_result_exists = true → fs_exists w (PurePath.fspath out) = false) →
  ∃ w1 evs r' cmd,
    run_check cmd (cwd_of fp) quiet true w = (w1, r')
    ∧ render engine format filepath renderer formatter quiet (Some o)
             raise_if_result_exists overwrite_filepath w
      = (w1, evs ++ [RunCheck cmd (cwd_of fp) quiet true],
         match r' with
         | Ok _ => Ok (PurePath.fspath out)
         | Raise e => Raise e
         end)
    ∧ Resolve fp ∉ evs.
Proof.
  intros out Hflags Hgrf Hcmd Hsrc Hn Hex.
  assert (Hne : out ≠ fp) by (by intros ->).
  assert (He1 : ∀ p, Resolve p ∉ e1).
  { destruct (get_rendering_format_events out format w) as (ew & rf & E & Hew).
    rewrite Hgrf in E. injection E as -> _. intros p Hp.
    destruct Hew as [->|(c & m & ->)]; [by apply elem_of_nil in Hp|].
    by apply list_elem_of_singleton in Hp. }
  assert (Hfound : raise_if_result_exists && fs_exists w (PurePath.fspath out)
                   = false).
  { destruct raise_if_result_exists; [|done]. by rewrite Hex. }
  apply String.eqb_neq in Hn.
  rewrite render_eq. unfold render_request. rewrite Hflags.
  change (promote_pathlike (Some o)) with (Some out). cbv beta iota zeta.
  rewrite render_outfile_eq, Hgrf. cbv beta iota. rewrite Hcmd, Hsrc.
  cbv beta iota zeta. rewrite Hn, andb_false_r. cbn [andb]. cbv beta iota zeta.
  rewrite Hfound.
  destruct (run_check _ (cwd_of fp) quiet true w) as [w1 r'] eqn:Hrun.
  eexists w1, _, r', _. split; [exact Hrun|]. rewrite !app_assoc.
  split; [reflexivity|].
  rewrite !app_nil_r, !elem_of_app. intros [[Hp|Hp]|Hp].
  - by apply He1 in Hp.
  - destruct (bool_decide _); [|by apply elem_of_nil in Hp].
    apply list_elem_of_singleton in Hp. by injection Hp as <-.
  - destruct raise_if_result_exists; [|by apply elem_of_nil in Hp].
    by apply list_elem_of_singleton in Hp.
Qed.

(** X20.  The file [render] looks up is the result: when a call that
    looked up a file returns, the path it returns is the path it looked
    up, and no file was there when the call started. *)
Theorem render_checks_its_result engine format filepath renderer formatter
    quiet outfile raise_if_result_exists overwrite_filepath w w1 evs p s :
  render engine format filepath renderer formatter quiet outfile
         raise_if_result_exists overwrite_filepath w = (w1, evs, Ok p) →
  Exists s ∈ evs →
  s = p ∧ fs_exists w p = false.
Proof.
  intros H Hin. rewrite render_eq in H.
  destruct (render_request _ _ _ _ _ _ _ _ w) as [[w0 e0] req] eqn:Hreq.
  destruct (render_request_world _ _ _ _ _ _ _ _ _ _ _ _ Hreq) as [-> _].
  destruct (render_request_events _ _ _ _ _ _ _ _ _ _ _ _ Hreq)
    as (ew & er & -> & Hew & Her & _).
  rewrite Forall_forall in Her.
  destruct req as [[[cmd fp] rendered]|e]; [|done]. simpl in H.
  destruct (raise_if_result_exists && fs_exists w _) eqn:Hfound; [done|].
  destruct (run_check cmd _ _ _ _) as [w1' [[]|e]]; [|done].
  injection H as _ <- <-.
  rewrite !elem_of_app in Hin. destruct Hin as [[Hin|Hin]|[Hin|Hin]].
  - destruct Hew as [->|(c & m & ->)]; [by apply elem_of_nil in Hin|].
    by apply list_elem_of_singleton in Hin.
  - by apply Her in Hin as (o & _ & [?|(? & _ & ?)]).
  - destruct raise_if_result_exists; [|by apply elem_of_nil in Hin].
    apply list_elem_of_singleton in Hin. by injection Hin as ->.
  - by apply list_elem_of_singleton in Hin.
Qed.

(** X21.  The format that reaches the command builder in the
    explicit-output mode is the one [get_rendering_format] settles on:
    without an explicit format the lower-cased suffix of the outfile;
    with an explicit format that format up to letter case: lower-cased
    when it only repeats the suffix (the inferred format is then the one
    used), and exactly as given in every other case.  The command the
    subprocess gets starts with the command built for it. *)
Theorem render_outfile_format engine format filepath renderer formatter
    quiet o raise_if_result_exists overwrite_filepath w w1 evs r cmd cwd q c :
  let out := PurePath.of_string o in
  render engine format filepath renderer formatter quiet (Some o)
         raise_if_result_exists overwrite_filepath w = (w1, evs, r) →
  RunCheck cmd cwd q c ∈ evs →
  ∃ fmt prefix rest,
    command engine fmt renderer formatter = Ok prefix
    ∧ cmd = prefix ++ rest
    ∧ (format = None → fmt = Str.drop 1 (Str.lower (PurePath.suffix out)))
    ∧ (∀ Y, format = Some Y →
            Str.lower fmt = Str.lower Y
            ∧ (infer_rendering_format out = Ok (Str.lower Y) →
               fmt = Str.lower Y)
            ∧ (infer_rendering_format out ≠ Ok (Str.lower Y) → fmt = Y)).
Proof.
  intros out H Hin.
  apply (render_run_inv _ _ _ _ _ _ _ _ _ _ _ _ _ _ _ _ _ H) in Hin
    as (e0 & fp & rendered & Hreq & ->).
  apply render_request_Ok in Hreq
    as (_ & e1 & fmt & prefix & Hgrf & Hcmd & _ & _ & ->).
  fold out in Hgrf. exists fmt, prefix. eexists. split; [done|]. split; [done|].
  unfold get_rendering_format in Hgrf.
  destruct (infer_rendering_format out) as [X|e] eqn:HX.
  - pose proof HX as HX'. apply infer_Ok_iff in HX' as (s & Hs & -> & _).
    split.
    + intros ->. injection Hgrf as _ <-. by rewrite Hs.
    + intros Y ->. destruct (String.eqb (Str.lower Y) (Str.lower s)) eqn:E;
        simpl in Hgrf; injection Hgrf as _ <-.
      * apply String.eqb_eq in E. rewrite lower_idemp.
        split; [done|]. split; [done|]. intros HY. by rewrite E in HY.
      * apply String.eqb_neq in E. split; [done|]. split; [|done].
        intros [= HY]. congruence.
  - apply infer_raises_ValueError in HX. destruct e; try done. split.
    + by intros ->.
    + intros Y ->. injection Hgrf as _ <-. by repeat split.
Qed.

End OutfileProperties.

(** ** The suffixes offered and the suffixes accepted *)

Section OfferedSuffixes.

Context `{B : Backend}.

Lemma contains_lower_slash (s : string) :
  Str.contains "/" (Str.lower s) = Str.contains "/" s.
Proof.
  induction s as [|a s IH]; [done|]. simpl. rewrite IH. f_equal.
  by destruct a as [[] [] [] [] [] [] [] []].
Qed.

(** The suffix of a path made from a string holds no separator. *)
Lemma suffix_no_sep (p : Path) :
  well_formed p → Str.contains "/" (PurePath.suffix p) = false.
Proof.
  intros Hp. destruct (decide (PurePath.suffix p = "")) as [->|Hne]; [done|].
  destruct (suffix_name p Hne) as [Hn Ht].
  destruct (last_component p Hp (name_nonempty_tail p Hn)) as [_ Hs].
  rewrite <- Ht, contains_append in Hs. by apply orb_false_iff in Hs as [_ ?].
Qed.

(** A file name that ends in a dot and [f] has the suffix [.f]. *)
Lemma suffix_of_string (f : string) :
  f ≠ "" → Str.contains "." f = false → Str.contains "/" f = false →
  PurePath.suffix (PurePath.of_string ("spam." +:+ f)) = "." +:+ f.
Proof.
  intros Hne Hdot Hsep.
  rewrite of_string_component.
  - rewrite (suffix_of_name _ "spam" f); [|done|done].
    by rewrite bool_decide_eq_true_2.
  - apply (is_component_append "" ("spam." +:+ f)). simpl. lia.
  - by rewrite contains_append, Hsep.
Qed.

(** X3.  The suffixes [get_supported_suffixes] offers in the messages
    are all that [infer_rendering_format] accepts, and can be more.  For
    an outfile the inference succeeds exactly when its lower-cased suffix
    is in the list, and the format it returns is then that suffix
    without its dot.  For an entry of the list, a dot before the format
    [f], there is an outfile whose format is inferred as [f] exactly
    when [f] is not empty, is lower-case, and holds neither a dot nor a
    separator: an entry that holds a dot, as of a format [xdot1.2], is
    offered and is the format of no outfile. *)
Theorem infer_accepts_supported_suffixes :
  (∀ outfile : Path,
     ((∃ X, infer_rendering_format outfile = Ok X)
      ↔ Str.lower (PurePath.suffix outfile) ∈ get_supported_suffixes)
     ∧ ∀ X, infer_rendering_format outfile = Ok X →
            X = Str.drop 1 (Str.lower (PurePath.suffix outfile)))
  ∧ (∀ f, "." +:+ f ∈ get_supported_suffixes →
          ((∃ o, infer_rendering_format (PurePath.of_string o) = Ok f)
           ↔ f ≠ "" ∧ Str.lower f = f
             ∧ Str.contains "." f = false ∧ Str.contains "/" f = false))
  ∧ (∀ f, Str.contains "." f = true → ∀ outfile : Path,
          infer_rendering_format outfile ≠ Ok f).
Proof.
  split; [|split].
  - intros outfile. split; [split|].
    + intros [X H]. apply infer_Ok_iff in H as (s & Hs & -> & Hf).
      rewrite Hs, lower_dot. apply elem_of_get_supported_suffixes. by eexists.
    + intros H. apply elem_of_get_supported_suffixes in H as (f & Hf & Hl).
      destruct (suffix_cases outfile) as [Hs|[s Hs]].
      * by rewrite Hs in Hl.
      * rewrite Hs in Hl. change (String "." s) with ("." +:+ s) in Hl.
        rewrite lower_dot in Hl. injection Hl as Hl.
        change (Str.lower s = f) in Hl.
        exists (Str.lower s). apply infer_supported; [done|]. by rewrite Hl.
    + intros X H. apply infer_Ok_iff in H as (s & Hs & -> & _). by rewrite Hs.
  - intros f Hf. apply elem_of_get_supported_suffixes in Hf as (f' & Hf & Heq).
    injection Heq as Heq. change (f = f') in Heq. subst f'. split.
    + intros [o H]. apply infer_Ok_iff in H as (s & Hs & -> & _).
      destruct (suffix_shape _ _ Hs) as [Hne Hdot].
      pose proof (suffix_no_sep _ (well_formed_of_string o)) as Hsep.
      rewrite Hs in Hsep. simpl in Hsep.
      split; [by apply lower_nonempty|]. split; [apply lower_idemp|].
      split; [by rewrite contains_lower_dot|by rewrite contains_lower_slash].
    + intros (Hne & Hl & Hdot & Hsep). exists ("spam." +:+ f).
      rewrite <- Hl at 2. apply infer_supported; [|by rewrite Hl].
      by apply suffix_of_string.
  - intros f Hdot outfile H. apply infer_Ok_iff in H as (s & Hs & -> & _).
    destruct (suffix_shape _ _ Hs) as [_ Hd].
    rewrite contains_lower_dot in Hdot. congruence.
Qed.

End OfferedSuffixes.

(** ** The properties at work on the sample back end *)

Section Examples.

Import Sample.

(** The examples of the docstrings of the module. *)

Example infer_spam_pdf :
  infer_rendering_format (PurePath.of_string "spam.pdf") = Ok "pdf".
Proof. vm_compute. reflexivity. Qed.

Example infer_spam_gv_svg :
  infer_rendering_format (PurePath.of_string "spam.gv.svg") = Ok "svg".
Proof. vm_compute. reflexivity. Qed.

Example infer_spam_PNG :
  infer_rendering_format (PurePath.of_string "spam.PNG") = Ok "png".
Proof. vm_compute. reflexivity. Qed.

Example infer_spam :
  infer_rendering_format (PurePath.of_string "spam")
  = Raise (ValueError
             "cannot infer rendering format from outfile: 'spam' (missing suffix)").
Proof. vm_compute. reflexivity. Qed.

Example infer_spam_mp3 :
  infer_rendering_format (PurePath.of_string "spam.mp3")
  = Raise (ValueError
             "cannot infer rendering format from suffix '.mp3' of outfile: 'spam.mp3' (unknown format: 'mp3', provide outfile with a suffix from ['.bmp', '.pdf', '.png', '.svg'])").
Proof. vm_compute. reflexivity. Qed.

Example render_doctest_default :
  ∃ w1 evs,
    render "dot" (Some "png") (Some "doctest-output/spam.gv") None None false
           None false false empty_world
    = (w1, evs, Ok "doctest-output/spam.gv.png").
Proof. eexists _, _. vm_compute. reflexivity. Qed.

Example render_doctest_outfile :
  ∃ w1 evs,
    render "dot" None (Some "doctest-output/spam.gv") None None false
           (Some "doctest-output/spam.png") false false empty_world
    = (w1, evs, Ok "doctest-output/spam.png").
Proof. eexists _, _. vm_compute. reflexivity. Qed.

Example render_doctest_outfile_only :
  ∃ w1 evs,
    render "dot" None None None None false
           (Some "doctest-output/spam.pdf") false false empty_world
    = (w1, evs, Ok "doctest-output/spam.pdf").
Proof. eexists _, _. vm_compute. reflexivity. Qed.

Lemma get_rendering_format_mismatch_witness :
  get_rendering_format (PurePath.of_string "spam.pdf") (Some "PNG") empty_world
  = (empty_world,
     [Warn FormatSuffixMismatchWarning
           "expected format 'pdf' from outfile differs from given format: 'PNG'"],
     Ok "PNG").
Proof.
  apply (get_rendering_format_mismatch (PurePath.of_string "spam.pdf") "pdf" "PNG").
  - vm_compute. reflexivity.
  - vm_compute. discriminate.
Defined.

Lemma get_rendering_format_unknown_suffix_witness :
  get_rendering_format (PurePath.of_string "spam.mp3") None empty_world
  = (empty_world, [],
     Raise (RequiredArgumentError
              "cannot infer rendering format from suffix '.mp3' of outfile: 'spam.mp3' (provide format or outfile with a suffix from ['.bmp', '.pdf', '.png', '.svg'])"))
  ∧ get_rendering_format (PurePath.of_string "spam") (Some "png") empty_world
    = (empty_world,
       [Warn UnknownSuffixWarning "unknown outfile suffix '' (expected: '.png')"],
       Ok "png").
Proof.
  split.
  - refine (proj1 (get_rendering_format_unknown_suffix
                     (PurePath.of_string "spam.mp3") empty_world _)).
    right. apply (proj1 (bool_decide_eq_false _)). vm_compute. reflexivity.
  - refine (proj2 (proj2 (proj2 (get_rendering_format_unknown_suffix
                     (PurePath.of_string "spam") empty_world _))) "png").
    left. vm_compute. reflexivity.
Defined.

(** C7 as stated fails: an explicit format that disagrees with the
    suffix comes back in the letter case it was given in. *)
Lemma get_rendering_format_keeps_case :
  get_rendering_format (PurePath.of_string "spam.pdf") (Some "PNG") empty_world
  = (empty_world,
     [Warn FormatSuffixMismatchWarning
           "expected format 'pdf' from outfile differs from given format: 'PNG'"],
     Ok "PNG")
  ∧ Str.lower "PNG" ≠ "PNG".
Proof. split; [vm_compute; reflexivity | vm_compute; discriminate]. Qed.

Lemma get_rendering_format_case_witness :
  get_rendering_format (PurePath.of_string "spam.PNG") None empty_world
  = (empty_world, [], Ok "png")
  ∧ (∀ Y, Some "Png" = Some Y →
          infer_rendering_format (PurePath.of_string "spam.PNG") = Ok (Str.lower Y) →
          "png" = Str.lower Y ∧ [] = ([] : list event))
  ∧ (∀ Y, Some "PNG" = Some Y →
          infer_rendering_format (PurePath.of_string "spam.pdf") ≠ Ok (Str.lower Y) →
          "PNG" = Y
          ∧ ∃ c m, [Warn FormatSuffixMismatchWarning
                         "expected format 'pdf' from outfile differs from given format: 'PNG'"]
                   = [Warn c m]).
Proof.
  split; [vm_compute; reflexivity|]. split.
  - refine (proj1 (proj2 (get_rendering_format_case
                            (PurePath.of_string "spam.PNG") (Some "Png")
                            empty_world empty_world [] "png" _))).
    vm_compute. reflexivity.
  - refine (proj1 (proj2 (proj2 (get_rendering_format_case
                            (PurePath.of_string "spam.pdf") (Some "PNG")
                            empty_world empty_world _ "PNG" _)))).
    vm_compute. reflexivity.
Defined.

(** A call in each mode that finds its result in the way, and a second
    call after a first one that succeeded. *)
Lemma render_result_exists_witness :
  render "dot" None None None None false (Some "spam.pdf") true false
         world_with_result
  = (world_with_result, [Exists "spam.pdf"],
     Raise (FileExistsError "output file exists: 'spam.pdf'"))
  ∧ render "dot" (Some "png") (Some "spam.gv") None None false None true false
           world_with_result
    = (world_with_result, [Exists "spam.gv.png"],
       Raise (FileExistsError "output file exists: 'spam.gv.png'"))
  ∧ ∃ w1 evs evs2,
      render "dot" None None None None false (Some "spam.pdf") true false
             world_with_source = (w1, evs, Ok "spam.pdf")
      ∧ render "dot" None None None None false (Some "spam.pdf") true false w1
        = (w1, evs2, Raise (FileExistsError "output file exists: 'spam.pdf'"))
      ∧ Forall (λ e, is_RunCheck e = false) evs2.
Proof.
  split; [|split].
  - refine (proj1 (proj1 (render_result_exists "dot" None None None None false
              (Some "spam.pdf") false world_with_result)
              world_with_result []
              [StrArg "dot"; StrArg "-Kdot"; StrArg "-Tpdf";
               StrArg "-o"; StrArg "spam.pdf"; StrArg "spam.gv"]
              (PurePath.of_string "spam.gv") (PurePath.of_string "spam.pdf")
              _ _)).
    + vm_compute. reflexivity.
    + vm_compute. reflexivity.
  - refine (proj1 (proj1 (render_result_exists "dot" (Some "png") (Some "spam.gv")
              None None false None false world_with_result)
              world_with_result []
              [StrArg "dot"; StrArg "-Kdot"; StrArg "-Tpng";
               StrArg "-O"; StrArg "spam.gv"]
              (PurePath.of_string "spam.gv") (PurePath.of_string "spam.gv.png")
              _ _)).
    + vm_compute. reflexivity.
    + vm_compute. reflexivity.
  - exists (touch (PurePath.of_string "spam.pdf") world_with_source).
    exists [Exists "spam.pdf";
            RunCheck [StrArg "dot"; StrArg "-Kdot"; StrArg "-Tpdf";
                      StrArg "-o"; StrArg "spam.pdf"; StrArg "spam.gv"]
                     None false true].
    assert (H1 : render "dot" None None None None false (Some "spam.pdf")
                   true false world_with_source
                 = (touch (PurePath.of_string "spam.pdf") world_with_source,
                    [Exists "spam.pdf";
                     RunCheck [StrArg "dot"; StrArg "-Kdot"; StrArg "-Tpdf";
                               StrArg "-o"; StrArg "spam.pdf"; StrArg "spam.gv"]
                              None false true],
                    Ok "spam.pdf")).
    { vm_compute. reflexivity. }
    destruct (proj2 (render_result_exists "dot" None None None None false
                (Some "spam.pdf") false world_with_source) _ _ _ H1)
      as [evs2 H2].
    + intros p. reflexivity.
    + vm_compute. reflexivity.
    + exists evs2. split; [exact H1|exact H2].
Defined.

Lemma render_default_result_witness :
  ∃ w1 evs,
    render "dot" (Some "png") (Some "spam.gv") None None false None false false
           empty_world = (w1, evs, Ok "spam.gv.png").
Proof.
  exists (touch (PurePath.of_string "spam.gv.png") empty_world).
  refine (proj2 (render_default_result "dot" "png" "spam.gv" None None false
                   false false empty_world)
                [StrArg "dot"; StrArg "-Kdot"; StrArg "-Tpng"] _ _ _ _ _).
  - reflexivity.
  - vm_compute. reflexivity.
  - discriminate.
  - vm_compute. reflexivity.
Defined.

(** C4 as stated fails: the name and the resolved form of the outfile
    and of the source agree, [overwrite_filepath] is not set, and the
    call fails in the format resolution, which comes first. *)
Lemma render_same_file_after_format :
  PurePath.name (PurePath.of_string "spam") = PurePath.name (PurePath.of_string "spam")
  ∧ fs_resolve empty_world (PurePath.of_string "spam")
    = fs_resolve empty_world (PurePath.of_string "spam")
  ∧ render "dot" None (Some "spam") None None false (Some "spam") false false
           empty_world
    = (empty_world, [],
       Raise (RequiredArgumentError
                "cannot infer rendering format from suffix '' of outfile: 'spam' (provide format or outfile with a suffix from ['.bmp', '.pdf', '.png', '.svg'])")).
Proof. split; [reflexivity|]. split; [reflexivity|]. vm_compute. reflexivity. Qed.

Lemma render_same_file_witness :
  render "dot" (Some "png") (Some "spam.gv") None None false (Some "spam.gv")
         false false empty_world
  = (empty_world,
     [Warn UnknownSuffixWarning "unknown outfile suffix '.gv' (expected: '.png')";
      Resolve (PurePath.of_string "spam.gv"); Resolve (PurePath.of_string "spam.gv")],
     Raise (ValueError "outfile 'spam.gv' must be different from input file 'spam.gv' (pass overwrite_filepath=True to override)")).
Proof.
  refine (proj1 (render_same_file "dot" (Some "png") (Some "spam.gv") None None
                   false "spam.gv" false empty_world
                   [Warn UnknownSuffixWarning
                         "unknown outfile suffix '.gv' (expected: '.png')"]
                   "png" [StrArg "dot"; StrArg "-Kdot"; StrArg "-Tpng"]
                   (PurePath.of_string "spam.gv") _ _ _ _ _)).
  - vm_compute. reflexivity.
  - vm_compute. reflexivity.
  - reflexivity.
  - reflexivity.
  - reflexivity.
Defined.

(** C10 as stated fails: the format is resolved (from the explicit
    format), and the call fails in the command builder, which comes
    before the comparison of the two paths. *)
Lemma render_named_like_source_after_command :
  PurePath.suffix (PurePath.of_string "spam.gv") = "." +:+ DEFAULT_SOURCE_EXTENSION
  ∧ get_rendering_format (PurePath.of_string "spam.gv") (Some "png") empty_world
    = (empty_world,
       [Warn UnknownSuffixWarning "unknown outfile suffix '.gv' (expected: '.png')"],
       Ok "png")
  ∧ render "dot" (Some "png") None None (Some "cairo") false (Some "spam.gv")
           false false empty_world
    = (empty_world,
       [Warn UnknownSuffixWarning "unknown outfile suffix '.gv' (expected: '.png')"],
       Raise (RequiredArgumentError "formatter given without renderer")).
Proof. repeat split; vm_compute; reflexivity. Qed.

Lemma render_outfile_named_like_source_witness :
  source_path None (PurePath.of_string "spam.gv") = Ok (PurePath.of_string "spam.gv")
  ∧ ∀ w1 evs r,
      render "dot" (Some "png") None None None false (Some "spam.gv") false false
             empty_world ≠ (w1, evs, Ok r).
Proof.
  destruct (render_outfile_named_like_source "dot" (Some "png") None None false
              "spam.gv" false empty_world) as (H1 & _ & H3).
  - vm_compute. reflexivity.
  - split; [exact H1|exact H3].
Defined.

(** The outfile argument in another directory than the source, and in
    the same directory. *)
Lemma render_outfile_argument_witness :
  (∃ e1 fmt prefix fp,
     get_rendering_format (PurePath.of_string "out/spam.png") None empty_world
     = (empty_world, e1, Ok fmt)
     ∧ command "dot" fmt None None = Ok prefix
     ∧ source_path (promote_pathlike (Some "doctest-output/spam.gv"))
                   (PurePath.of_string "out/spam.png") = Ok fp
     ∧ [StrArg "dot"; StrArg "-Kdot"; StrArg "-Tpng"; StrArg "-o";
        PathArg (mkPath "/" ["work"; "out"; "spam.png"]); StrArg "spam.gv"]
       = prefix ++ [StrArg "-o";
                    if bool_decide (PurePath.parent (PurePath.of_string "out/spam.png")
                                    ≠ PurePath.parent fp)
                    then PathArg (fs_resolve empty_world
                                    (PurePath.of_string "out/spam.png"))
                    else StrArg (PurePath.name (PurePath.of_string "out/spam.png"));
                    StrArg (PurePath.name fp)])
  ∧ (∃ e1 fmt prefix fp,
       get_rendering_format (PurePath.of_string "out/spam.png") None empty_world
       = (empty_world, e1, Ok fmt)
       ∧ command "dot" fmt None None = Ok prefix
       ∧ source_path (promote_pathlike None)
                     (PurePath.of_string "out/spam.png") = Ok fp
       ∧ [StrArg "dot"; StrArg "-Kdot"; StrArg "-Tpng"; StrArg "-o";
          StrArg "spam.png"; StrArg "spam.gv"]
         = prefix ++ [StrArg "-o";
                      if bool_decide (PurePath.parent (PurePath.of_string "out/spam.png")
                                      ≠ PurePath.parent fp)
                      then PathArg (fs_resolve empty_world
                                      (PurePath.of_string "out/spam.png"))
                      else StrArg (PurePath.name (PurePath.of_string "out/spam.png"));
                      StrArg (PurePath.name fp)]).
Proof.
  split.
  - eapply (proj1 (render_outfile_argument "dot" None (Some "doctest-output/spam.gv")
              None None false "out/spam.png" false false empty_world)
              _ _ _ _ (Some "doctest-output") false true).
    + vm_compute. reflexivity.
    + apply list_elem_of_further, list_elem_of_here.
  - eapply (proj1 (render_outfile_argument "dot" None None
              None None false "out/spam.png" false false empty_world)
              _ _ _ _ (Some "out") false true).
    + vm_compute. reflexivity.
    + apply list_elem_of_here.
Defined.

Lemma render_outfile_result_witness :
  ∃ w1 evs,
    render "dot" None None None None false (Some "spam.pdf") false false
           world_with_source = (w1, evs, Ok "spam.pdf")
    ∧ "spam.pdf" = PurePath.fspath (PurePath.of_string "spam.pdf")
    ∧ PurePath.is_absolute (PurePath.of_string "spam.pdf") = false.
Proof.
  exists (touch (PurePath.of_string "spam.pdf") world_with_source).
  exists [RunCheck [StrArg "dot"; StrArg "-Kdot"; StrArg "-Tpdf";
                    StrArg "-o"; StrArg "spam.pdf"; StrArg "spam.gv"]
                   None false true].
  assert (H : render "dot" None None None None false (Some "spam.pdf") false false
                world_with_source
              = (touch (PurePath.of_string "spam.pdf") world_with_source,
                 [RunCheck [StrArg "dot"; StrArg "-Kdot"; StrArg "-Tpdf";
                            StrArg "-o"; StrArg "spam.pdf"; StrArg "spam.gv"]
                           None false true],
                 Ok "spam.pdf")).
  { vm_compute. reflexivity. }
  split; [exact H|].
  destruct (render_outfile_result _ _ _ _ _ _ _ _ _ _ _ _ _ H) as (H1 & _ & H3).
  split; [exact H1|exact H3].
Defined.

End Examples.

(** ** The further properties at work on the sample back end *)

Section MoreExamples.

Import Sample.

Lemma default_call (w : World) :
  render "dot" (Some "png") (Some "doctest-output/spam.gv") None None false
         None false false w
  = (after_default_call w,
     [RunCheck default_call_cmd (Some "doctest-output") false true],
     Ok "doctest-output/spam.gv.png").
Proof. reflexivity. Qed.

Lemma outfile_call (w : World) :
  render "dot" None None None None false (Some "out/spam.pdf") false false w
  = (after_outfile_call w,
     [RunCheck outfile_call_cmd (Some "out") false true],
     Ok "out/spam.pdf").
Proof. reflexivity. Qed.

(** A suffix in capitals that is accepted; an offered suffix that some
    outfile has; and, on a registry with a dotted format, an offered
    suffix that no outfile has. *)
Lemma infer_accepts_supported_suffixes_witness :
  Str.lower (PurePath.suffix (PurePath.of_string "spam.PNG"))
    ∈ get_supported_suffixes
  ∧ "png" = Str.drop 1 (Str.lower (PurePath.suffix (PurePath.of_string "spam.PNG")))
  ∧ (∃ o, infer_rendering_format (PurePath.of_string o) = Ok "png")
  ∧ ".xdot1.2" ∈ @get_supported_suffixes dotted_backend
  ∧ (∀ outfile, @infer_rendering_format dotted_backend outfile ≠ Ok "xdot1.2")
  ∧ @infer_rendering_format dotted_backend (PurePath.of_string "spam.xdot1.2")
    = Raise (ValueError
               "cannot infer rendering format from suffix '.2' of outfile: 'spam.xdot1.2' (unknown format: '2', provide outfile with a suffix from ['.png', '.xdot1.2'])").
Proof.
  destruct (@infer_accepts_supported_suffixes sample_backend) as (H1 & H2 & _).
  destruct (H1 (PurePath.of_string "spam.PNG")) as [[H1a _] H1b].
  destruct (@infer_accepts_supported_suffixes dotted_backend) as (_ & _ & H3).
  split; [|split; [|split; [|split; [|split]]]].
  - apply H1a. exists "png". vm_compute. reflexivity.
  - apply H1b. vm_compute. reflexivity.
  - apply (H2 "png").
    + apply elem_of_get_supported_suffixes. exists "png". split; [|done].
      apply (bool_decide_unpack _). vm_compute. reflexivity.
    + by repeat split.
  - apply elem_of_get_supported_suffixes. exists "xdot1.2". split; [|done].
    apply (bool_decide_unpack _). vm_compute. reflexivity.
  - apply H3. vm_compute. reflexivity.
  - vm_compute. reflexivity.
Defined.

Lemma infer_rendering_format_outcome_witness :
  "png" ∈ FORMATS ∧ Str.lower "png" = "png" ∧ "png" ≠ ""
  ∧ Str.contains "." "png" = false.
Proof.
  apply (proj2 (infer_rendering_format_outcome (PurePath.of_string "spam.PNG"))).
  vm_compute. reflexivity.
Defined.

(** A name with an extension, a name that is only an extension, and a
    name that ends in a dot. *)
Lemma infer_rendering_format_by_name_witness :
  infer_rendering_format (PurePath.of_string "dir/spam.PNG") = Ok "png"
  ∧ infer_rendering_format (PurePath.of_string ".png")
    = Raise (ValueError
               "cannot infer rendering format from outfile: '.png' (missing suffix)")
  ∧ infer_rendering_format (PurePath.of_string "spam.")
    = Raise (ValueError
               "cannot infer rendering format from outfile: 'spam.' (missing suffix)").
Proof.
  split; [|split].
  - rewrite (proj1 (infer_rendering_format_by_name _) "spam" "PNG");
      vm_compute; reflexivity.
  - rewrite (proj1 (infer_rendering_format_by_name _) "" "png");
      vm_compute; reflexivity.
  - rewrite (proj1 (infer_rendering_format_by_name _) "spam" "");
      vm_compute; reflexivity.
Defined.

Lemma render_required_arguments_witness :
  render "dot" None (Some "spam.gv") None None false None true false empty_world
  = (empty_world, [],
     Raise (RequiredArgumentError
              "format: (required if outfile is not given, got None)"))
  ∧ render "dot" (Some "png") None None None false None true false empty_world
    = (empty_world, [],
       Raise (RequiredArgumentError
                "filepath: (required if outfile is not given, got None)")).
Proof.
  split.
  - refine (proj1 (render_required_arguments "dot" (Some "spam.gv") None None
                     false true false empty_world _)).
    reflexivity.
  - refine (proj2 (render_required_arguments "dot" None None None
                     false true false empty_world _) "png").
    reflexivity.
Defined.

Lemma render_runs_engine_once_witness :
  false = false ∧ true = true
  ∧ ∃ evs0 r',
      [RunCheck default_call_cmd (Some "doctest-output") false true]
      = evs0 ++ [RunCheck default_call_cmd (Some "doctest-output") false true]
      ∧ Forall (λ e, is_RunCheck e = false) evs0
      ∧ run_check default_call_cmd (Some "doctest-output") false true empty_world
        = (after_default_call empty_world, r')
      ∧ match r' with
        | Ok _ => ∃ p, Ok "doctest-output/spam.gv.png" = Ok p
        | Raise e => (Ok "doctest-output/spam.gv.png" : result string) = Raise e
        end.
Proof.
  apply (render_runs_engine_once _ _ _ _ _ _ _ _ _ _ _ _ _ _ _ _ _
           (default_call empty_world)).
  apply list_elem_of_here.
Defined.

Lemma render_without_engine_witness :
  (empty_world = empty_world
   ∧ ∃ e, (Raise (RequiredArgumentError format_required_msg) : result string)
          = Raise e)
  ∧ ∃ cmd cwd,
      RunCheck cmd cwd false true
      ∈ [RunCheck default_call_cmd (Some "doctest-output") false true].
Proof.
  split.
  - refine (proj1 (render_without_engine "dot" None None None None false None
                     false false empty_world empty_world [] _ _) _);
      [reflexivity|constructor].
  - exact (proj2 (render_without_engine _ _ _ _ _ _ _ _ _ _ _ _ _
                    (default_call empty_world)) _ eq_refl).
Defined.

(** A call that warns, resolves the outfile, looks up the result and
    runs the subprocess. *)
Lemma render_trace_witness :
  ∃ w1 evs,
    render "dot" (Some "png") (Some "doctest-output/spam.gv") None None false
           (Some "out/spam.pdf") true false empty_world
    = (w1, evs, Ok "out/spam.pdf")
    ∧ Exists "out/spam.pdf" ∈ evs
    ∧ Resolve (PurePath.of_string "out/spam.pdf") ∈ evs
    ∧ (∀ c m, Warn c m ∈ evs →
              is_Some (Some "out/spam.pdf")
              ∧ ∃ rest, evs = Warn c m :: rest ∧ ∀ c' m', Warn c' m' ∉ rest).
Proof.
  eexists _, _. split; [vm_compute; reflexivity|].
  split; [apply list_elem_of_further, list_elem_of_further, list_elem_of_here|].
  split; [apply list_elem_of_further, list_elem_of_here|].
  refine (proj2 (proj2 (render_trace "dot" (Some "png")
            (Some "doctest-output/spam.gv") None None false
            (Some "out/spam.pdf") true false empty_world _ _ _ _))).
  vm_compute. reflexivity.
Defined.

(** An unknown engine, with a result in the way and
    [raise_if_result_exists] set. *)
Lemma render_command_error_witness :
  render "nonsense" (Some "png") (Some "spam.gv") None None false None
         true false world_with_result
  = (world_with_result, [], Raise (ValueError "unknown engine: 'nonsense'")).
Proof.
  refine (proj1 (render_command_error "nonsense" None None None None false
                   true false world_with_result _) "png" "spam.gv" _ _).
  - reflexivity.
  - vm_compute. reflexivity.
Defined.

Lemma render_default_sibling_witness :
  PurePath.parent (PurePath.of_string "doctest-output/spam.gv.png")
  = PurePath.parent (PurePath.of_string "doctest-output/spam.gv")
  ∧ PurePath.name (PurePath.of_string "doctest-output/spam.gv.png")
    = PurePath.name (PurePath.of_string "doctest-output/spam.gv") +:+ "."
      +:+ Str.join "." (omap id [None; None; Some "png"]).
Proof.
  refine (render_default_sibling _ _ _ _ _ _ _ _ _ _ _ _ _ _
            (default_call empty_world)).
  - vm_compute. discriminate.
  - repeat constructor.
Defined.

Lemma render_outfile_only_witness :
  ∃ stem fp,
    PurePath.name (PurePath.of_string "out/spam.pdf")
    = stem +:+ PurePath.suffix (PurePath.of_string "out/spam.pdf")
    ∧ source_path None (PurePath.of_string "out/spam.pdf") = Ok fp
    ∧ PurePath.name fp = stem +:+ "." +:+ DEFAULT_SOURCE_EXTENSION
    ∧ PurePath.parent fp = PurePath.parent (PurePath.of_string "out/spam.pdf")
    ∧ ∀ w1 evs r cmd cwd q c,
        render "dot" None None None None false (Some "out/spam.pdf")
               false false empty_world = (w1, evs, r) →
        RunCheck cmd cwd q c ∈ evs →
        cwd = cwd_of (PurePath.of_string "out/spam.pdf")
        ∧ ∃ prefix,
            cmd = prefix ++ [StrArg "-o";
                             StrArg (PurePath.name (PurePath.of_string "out/spam.pdf"));
                             StrArg (PurePath.name fp)].
Proof.
  apply (render_outfile_only "dot" None None None false "out/spam.pdf"
           false false empty_world).
  vm_compute. discriminate.
Defined.

Lemma render_outfile_only_succeeds_witness :
  render "dot" None None None None false (Some "out/spam.pdf") false false
         empty_world
  = (after_outfile_call empty_world,
     [RunCheck outfile_call_cmd (Some "out") false true],
     Ok "out/spam.pdf").
Proof.
  refine (render_outfile_only_succeeds "dot" None None false "out/spam.pdf" "pdf"
            false false empty_world
            [StrArg "dot"; StrArg "-Kdot"; StrArg "-Tpdf"]
            (after_outfile_call empty_world) _ _ _ _ _ _ _).
  - vm_compute. reflexivity.
  - apply (bool_decide_unpack _). vm_compute. exact I.
  - discriminate.
  - reflexivity.
  - vm_compute. reflexivity.
  - discriminate.
  - reflexivity.
Defined.

Lemma render_outfile_without_name_witness :
  render "dot" (Some "png") None None None false (Some ".") false false
         empty_world
  = (empty_world,
     [Warn UnknownSuffixWarning "unknown outfile suffix '' (expected: '.png')"],
     Raise (ValueError "PosixPath('.') has an empty name")).
Proof.
  refine (proj2 (render_outfile_without_name "dot" (Some "png") None None false
                   "." false false empty_world _)
                "png" [StrArg "dot"; StrArg "-Kdot"; StrArg "-Tpng"] _ _).
  - vm_compute. reflexivity.
  - reflexivity.
  - vm_compute. reflexivity.
Defined.

Lemma render_working_directory_witness :
  ∃ front fp,
    default_call_cmd = front ++ [StrArg (PurePath.name fp)]
    ∧ (∀ f, Some "doctest-output/spam.gv" = Some f → fp = PurePath.of_string f)
    ∧ (Some "doctest-output/spam.gv" = None →
       ∃ o, None = Some o ∧ source_path None (PurePath.of_string o) = Ok fp)
    ∧ working_directory (Some "doctest-output") // PurePath.name fp = fp.
Proof.
  eapply (render_working_directory _ _ _ _ _ _ _ _ _ _ _ _ _ _ _ false true
            (default_call empty_world)).
  apply list_elem_of_here.
Defined.

(** The same call in a world without the result and in one with it. *)
Lemma render_result_independent_of_world_witness :
  ∃ w1 evs w1' evs' r r',
    render "dot" (Some "png") (Some "spam.gv") None None false None false false
           empty_world = (w1, evs, Ok r)
    ∧ render "dot" (Some "png") (Some "spam.gv") None None false None false false
             world_with_result = (w1', evs', Ok r')
    ∧ r = r'.
Proof.
  eexists _, _, _, _, _, _.
  split; [vm_compute; reflexivity|]. split; [vm_compute; reflexivity|].
  eapply (render_result_independent_of_world "dot" (Some "png") (Some "spam.gv")
            None None false None false false empty_world _ _ _
            world_with_result);
    vm_compute; reflexivity.
Defined.

(** Two names for one file: every path resolves to the same path, and
    the call goes through. *)
Lemma render_names_differ_witness :
  ∃ w1 evs r' cmd,
    run_check cmd (cwd_of (PurePath.of_string "spam.gv")) false true one_file_world
    = (w1, r')
    ∧ render "dot" None (Some "spam.gv") None None false (Some "link.pdf")
             false false one_file_world
      = (w1, evs ++ [RunCheck cmd (cwd_of (PurePath.of_string "spam.gv")) false true],
         match r' with
         | Ok _ => Ok (PurePath.fspath (PurePath.of_string "link.pdf"))
         | Raise e => Raise e
         end)
    ∧ Resolve (PurePath.of_string "spam.gv") ∉ evs.
Proof.
  refine (render_names_differ "dot" None (Some "spam.gv") None None false
            "link.pdf" false false one_file_world [] "pdf"
            [StrArg "dot"; StrArg "-Kdot"; StrArg "-Tpdf"]
            (PurePath.of_string "spam.gv") _ _ _ _ _ _).
  - reflexivity.
  - vm_compute. reflexivity.
  - vm_compute. reflexivity.
  - reflexivity.
  - vm_compute. discriminate.
  - discriminate.
Defined.

Lemma render_checks_its_result_witness :
  ∃ w1 cmd,
    render "dot" None None None None false (Some "out/spam.pdf") true false
           empty_world
    = (w1, [Exists "out/spam.pdf"; RunCheck cmd (Some "out") false true],
       Ok "out/spam.pdf")
    ∧ "out/spam.pdf" = "out/spam.pdf"
    ∧ fs_exists empty_world "out/spam.pdf" = false.
Proof.
  eexists _, _.
  assert (H : render "dot" None None None None false (Some "out/spam.pdf")
                true false empty_world
              = (after_outfile_call empty_world,
                 [Exists "out/spam.pdf";
                  RunCheck outfile_call_cmd (Some "out") false true],
                 Ok "out/spam.pdf")) by reflexivity.
  split; [exact H|].
  apply (render_checks_its_result _ _ _ _ _ _ _ _ _ _ _ _ _ _ H).
  apply list_elem_of_here.
Defined.

(** An explicit format that disagrees with the suffix reaches the
    command builder as given; one that repeats the suffix in another
    letter case reaches it lower-cased. *)
Lemma render_outfile_format_witness :
  (∃ fmt prefix rest,
     command "dot" fmt None None = Ok prefix
     ∧ [StrArg "dot"; StrArg "-Kdot"; StrArg "-TPNG";
        StrArg "-o"; StrArg "spam.pdf"; StrArg "spam.gv"] = prefix ++ rest
     ∧ (Some "PNG" = None
        → fmt = Str.drop 1 (Str.lower (PurePath.suffix (PurePath.of_string "spam.pdf"))))
     ∧ (∀ Y, Some "PNG" = Some Y →
             Str.lower fmt = Str.lower Y
             ∧ (infer_rendering_format (PurePath.of_string "spam.pdf")
                = Ok (Str.lower Y) → fmt = Str.lower Y)
             ∧ (infer_rendering_format (PurePath.of_string "spam.pdf")
                ≠ Ok (Str.lower Y) → fmt = Y)))
  ∧ (∃ fmt prefix rest,
       command "dot" fmt None None = Ok prefix
       ∧ [StrArg "dot"; StrArg "-Kdot"; StrArg "-Tpng";
          StrArg "-o"; StrArg "spam.png"; StrArg "spam.gv"] = prefix ++ rest
       ∧ (Some "PNG" = None
          → fmt = Str.drop 1 (Str.lower (PurePath.suffix (PurePath.of_string "spam.png"))))
       ∧ (∀ Y, Some "PNG" = Some Y →
               Str.lower fmt = Str.lower Y
               ∧ (infer_rendering_format (PurePath.of_string "spam.png")
                  = Ok (Str.lower Y) → fmt = Str.lower Y)
               ∧ (infer_rendering_format (PurePath.of_string "spam.png")
                  ≠ Ok (Str.lower Y) → fmt = Y))).
Proof.
  split.
  - eapply (render_outfile_format "dot" (Some "PNG") None None None false "spam.pdf"
              false false empty_world _ _ _ _ None false true).
    + vm_compute. reflexivity.
    + apply list_elem_of_further, list_elem_of_here.
  - eapply (render_outfile_format "dot" (Some "PNG") None None None false "spam.png"
              false false empty_world _ _ _ _ None false true).
    + vm_compute. reflexivity.
    + apply list_elem_of_here.
Defined.

End MoreExamples.
